(** * pySWATPlus: the calibration notebook and the publish workflow

    A shallow embedding of the two files of the repository,
    [docs/examples/calibration.ipynb] and [.github/workflows/publish.yml].

    The notebook is Python that orchestrates calls into packages that are
    not part of these files (the [TxtinoutReader] of pySWATPlus, numpy's
    random generator, the optimizer).  Its code is embedded as a program
    over the calls it issues; what the called packages do is kept apart,
    in handlers. *)

From Stdlib Require Import ZArith QArith Lia List Ascii String Bool.
From stdpp Require Import gmap strings list fin_maps.

Local Open Scope string_scope.
Local Open Scope list_scope.
Set Warnings "-register-all".

(** ** Python values *)

Module Py.

(** The values the notebook handles.  A [dict] literal keeps its insertion
    order, so a dictionary value is an association list; a float is kept as
    the rational it denotes. *)
Inductive pyval : Type :=
| VNone
| VBool (b : bool)
| VInt (z : Z)
| VFloat (q : Q)
| VStr (s : string)
| VPath (p : string)
| VTuple (l : list pyval)
| VList (l : list pyval)
| VDict (d : list (string * pyval)).

(** Exceptions: [d[k]] on a missing key raises [KeyError]; tuple
    unpacking of the wrong arity raises [ValueError]; anything a called
    package raises is an [ExternalError] with its class name. *)
Inductive exn : Type :=
| KeyError (key : string)
| ValueError (msg : string)
| TypeError (msg : string)
| ExternalError (cls : string).

(** A program that issues calls of signature [E]: it returns, raises, or
    calls out and continues with the answer. *)
Inductive prog (E : Type -> Type) (A : Type) : Type :=
| Ret (a : A)
| Raise (e : exn)
| Call {X : Type} (c : E X) (k : X -> prog E A).

Arguments Ret {E A} a.
Arguments Raise {E A} e.
Arguments Call {E A X} c k.

Fixpoint bind {E A B} (p : prog E A) (f : A -> prog E B) : prog E B :=
  match p with
  | Ret a => f a
  | Raise e => Raise e
  | Call c k => Call c (fun x => bind (k x) f)
  end.

Definition call {E X} (c : E X) : prog E X := Call c Ret.

Declare Scope py_scope.
Delimit Scope py_scope with py.
Notation "x <- c1 ;; c2" := (bind c1 (fun x => c2))
  (at level 100, c1 at next level, right associativity) : py_scope.

(** [d[k]] on a dictionary with string keys. *)
Definition getitem {E} (d : gmap string pyval) (k : string) : prog E pyval :=
  match d !! k with
  | Some v => Ret v
  | None => Raise (KeyError k)
  end.

(** *** Running a program against the packages it calls *)

(** A handler answers each call in a world [W]: with a value or with an
    exception, and a new world. *)
Definition handler (E : Type -> Type) (W : Type) : Type :=
  forall X, E X -> W -> (exn + X) * W.

(** One call together with its answer. *)
Inductive entry (E : Type -> Type) : Type :=
| Entry {X : Type} (c : E X) (r : exn + X).

Arguments Entry {E X} c r.

(** The outcome of a run: the value or exception, the final world and the
    calls issued, oldest first. *)
Record run (E : Type -> Type) (W A : Type) : Type := Run {
  outcome : exn + A;
  final : W;
  trace : list (entry E)
}.

Arguments Run {E W A} outcome final trace.
Arguments outcome {E W A} r.
Arguments final {E W A} r.
Arguments trace {E W A} r.

Definition logged {E W A} (t : entry E) (r : run E W A) : run E W A :=
  Run (outcome r) (final r) (t :: trace r).

Fixpoint exec {E W A} (h : handler E W) (p : prog E A) (w : W) : run E W A :=
  match p with
  | Ret a => Run (inr a) w []
  | Raise e => Run (inl e) w []
  | Call c k =>
      match h _ c w with
      | (inl e, w') => Run (inl e) w' [Entry c (inl e)]
      | (inr x, w') => logged (Entry c (inr x)) (exec h (k x) w')
      end
  end.

End Py.

Import Py.

(** ** The notebook: [docs/examples/calibration.ipynb] *)

Module Notebook.

Local Open Scope py_scope.

(** *** What the notebook calls *)

(** A [TxtinoutReader] object: the notebook reads one attribute of it,
    [root_folder], which is a path (the notebook's output cell prints it
    as a [PosixPath]). *)
Record TxtinoutReader : Type := { root_folder : string }.

(** A numpy [Generator] object, known by its identity. *)
Record Generator : Type := { gen_id : nat }.

(** The calls into [pySWATPlus.TxtinoutReader]: the constructor and the
    two methods the notebook uses. *)
Inductive readerE : Type -> Type :=
| TxtinoutReader_init (path : pyval) : readerE TxtinoutReader
| copy_swat (self : TxtinoutReader) (target_dir : pyval) : readerE pyval
| run_swat (self : TxtinoutReader) (params : pyval) (show_output : bool)
    : readerE pyval.

(** The calls into numpy: [np.random.default_rng()] and [rng.random()],
    which returns a Python float. *)
Inductive numpyE : Type -> Type :=
| default_rng : numpyE Generator
| random (rng : Generator) : numpyE Q.

Inductive swatE : Type -> Type :=
| Reader {X : Type} (c : readerE X) : swatE X
| Numpy {X : Type} (c : numpyE X) : swatE X.

(** *** Cell 2: the objective function *)

Definition function_to_minimize (dict_of_params : gmap string pyval)
  : prog swatE pyval :=
  calibration_params <- getitem dict_of_params "calibration_params" ;;
  path_to_txtinout <- getitem dict_of_params "path_to_txtinout" ;;
  reader <- call (Reader (TxtinoutReader_init path_to_txtinout)) ;;
  tmp_path <- call (Reader (copy_swat reader VNone)) ;;
  reader <- call (Reader (TxtinoutReader_init tmp_path)) ;;
  txt_in_out_result <-
    call (Reader (run_swat reader calibration_params false)) ;;
  result_reader <- call (Reader (TxtinoutReader_init txt_in_out_result)) ;;
  rng <- call (Numpy default_rng) ;;
  x <- call (Numpy (random rng)) ;;
  Ret (VTuple [VFloat x;
               VDict [("test_calibration", VPath (root_folder result_reader))]]).

(** *** The packages behind the calls *)

(** A string or path value names a directory. *)
Definition path_of (v : pyval) : option string :=
  match v with
  | VStr s => Some s
  | VPath s => Some s
  | _ => None
  end.

Section TxtinoutReaderModel.

(** The SWAT+ executable: run with calibration parameters on the files
    of a workspace, it leaves new files and may fail.  It is a black box
    to these files, hence a parameter. *)
Variable simulate :
  pyval -> gmap string string -> gmap string string * option exn.

(** Modelled from the spec: the [TxtinoutReader] class of pySWATPlus,
    whose code is not among the files.  "An external reader component
    duplicates the workspace and executes the simulation with the
    supplied parameters": a reader stands for a workspace directory;
    [copy_swat] with no target directory duplicates that workspace into
    a temporary directory, one that did not exist, and returns its path;
    [run_swat] executes the simulation in the reader's own directory
    and returns the location of the output.  The world is the file
    system: directories by path, each a set of files by name. *)
Definition reader_handler : handler readerE (gmap string (gmap string string)) :=
  fun X c fs =>
    match c in readerE X return (exn + X) * gmap string (gmap string string) with
    | TxtinoutReader_init path =>
        match path_of path with
        | None => (inl (TypeError "path"), fs)
        | Some p =>
            match fs !! p with
            | None => (inl (ExternalError "FileNotFoundError"), fs)
            | Some _ => (inr {| root_folder := p |}, fs)
            end
        end
    | copy_swat self target_dir =>
        match fs !! root_folder self with
        | None => (inl (ExternalError "FileNotFoundError"), fs)
        | Some files =>
            match target_dir with
            | VNone =>
                let tmp := fresh (dom fs) in
                (inr (VStr tmp), <[tmp := files]> fs)
            | _ =>
                match path_of target_dir with
                | None => (inl (TypeError "target_dir"), fs)
                | Some t => (inr (VStr t), <[t := files]> fs)
                end
            end
        end
    | run_swat self params show_output =>
        match fs !! root_folder self with
        | None => (inl (ExternalError "FileNotFoundError"), fs)
        | Some files =>
            let '(files', err) := simulate params files in
            let fs' := <[root_folder self := files']> fs in
            match err with
            | Some e => (inl e, fs')
            | None => (inr (VPath (root_folder self)), fs')
            end
        end
    end.

End TxtinoutReaderModel.

(** numpy's side of the world: the operating system's entropy, word by
    word, how much of it has been drawn, and the state of each generator
    made so far. *)
Record numpy_state : Type := {
  entropy : nat -> Z;
  drawn : nat;
  generators : gmap nat Z
}.

Section NumpyModel.

(** numpy is a third-party package: how a bit generator is seeded, how
    it advances and which float it yields next are parameters. *)
Variable seed_state : Z -> Z.
Variable advance : Z -> Z.
Variable next_double : Z -> Q.

(** [default_rng()] with no seed makes a new generator seeded from fresh
    entropy of the operating system; [rng.random()] yields the next
    float of that generator and advances it. *)
Definition numpy_handler : handler numpyE numpy_state :=
  fun X c st =>
    match c in numpyE X return (exn + X) * numpy_state with
    | default_rng =>
        let id := fresh (dom (generators st)) in
        (inr {| gen_id := id |},
         {| entropy := entropy st;
            drawn := S (drawn st);
            generators :=
              <[id := seed_state (entropy st (drawn st))]> (generators st) |})
    | random rng =>
        match generators st !! gen_id rng with
        | None => (inl (ExternalError "ReferenceError"), st)
        | Some g =>
            (inr (next_double g),
             {| entropy := entropy st;
                drawn := drawn st;
                generators := <[gen_id rng := advance g]> (generators st) |})
        end
    end.

End NumpyModel.

(** The two packages side by side, each on its own part of the world. *)
Definition swat_handler {W1 W2} (hr : handler readerE W1)
    (hn : handler numpyE W2) : handler swatE (W1 * W2) :=
  fun X c w =>
    match c in swatE X return (exn + X) * (W1 * W2) with
    | Reader c => let '(r, w1) := hr _ c (fst w) in (r, (w1, snd w))
    | Numpy c => let '(r, w2) := hn _ c (snd w) in (r, (fst w, w2))
    end.

(** *** Cell 3: the calibration problem *)

(** The arguments the notebook gives to [SWATProblem(...)]; the class is
    part of pySWATPlus and not among the files.  [kwargs] holds the
    keyword arguments beyond the named ones. *)
Record SWATProblem : Type := {
  params : pyval;
  function_to_evaluate : gmap string pyval -> prog swatE pyval;
  param_arg_name : string;
  n_workers : Z;
  parallelization : string;
  debug : bool;
  kwargs : gmap string pyval
}.

Definition txtinout_folder : string :=
  "/mnt/c/Users/joans/OneDrive/Escriptori/icra/muga_windows".

Definition swat_problem : SWATProblem :=
  {| params :=
       VDict [("plants.plt",
               VTuple [VStr "name";
                       VList [VTuple [VStr "bana"; VStr "bm_e"; VInt 40; VInt 50];
                              VTuple [VStr "bana"; VStr "harv_idx";
                                      VFloat (4 # 10); VFloat (5 # 10)]]])];
     function_to_evaluate := function_to_minimize;
     param_arg_name := "calibration_params";
     n_workers := 4;
     parallelization := "threads";
     debug := false;
     kwargs := {[ "path_to_txtinout" := VStr txtinout_folder ]} |}.

(** *** Cell 4: the algorithm and the termination *)

(** The arguments of pymoo's [CMAES(...)], and what pymoo's
    [get_termination] makes of the criterion ["n_eval"]. *)
Record CMAES : Type := {
  cmaes_x0 : list Q;
  maxfevals : nat
}.

Inductive Termination : Type :=
| n_eval (n : nat).

Definition n_simulations : nat := 2.

Section Cell4.

(** [x0 = denormalize(np.random.random(2), ...)]: two random numbers that
    pymoo scales into the bounds. *)
Variable x0 : list Q.

Definition algorithm : CMAES :=
  {| cmaes_x0 := x0; maxfevals := n_simulations |}.

Definition termination : Termination := n_eval n_simulations.

End Cell4.

(** *** Cell 5: the optimization *)

(** [a, b, c = v] *)
Definition unpack3 {E} (v : pyval) : prog E (pyval * pyval * pyval) :=
  match v with
  | VTuple [a; b; c] => Ret (a, b, c)
  | VList [a; b; c] => Ret (a, b, c)
  | _ => Raise (ValueError "unpack")
  end.

(** One evaluation of the objective: the vector tried, its fitness and
    the output location the scoring function reported. *)
Record evaluation : Type := {
  ev_x : list Q;
  ev_fitness : Q;
  ev_output : pyval
}.

Definition scalar (v : pyval) : option Q :=
  match v with
  | VInt z => Some (inject_Z z)
  | VFloat q => Some q
  | _ => None
  end.

(** Modelled from the spec: the best of the evaluations made, which is
    not among the files either.  The fitness is the "scalar score an
    optimizer seeks to minimize": the best evaluation is one of least
    fitness, the earliest one among equals. *)
Fixpoint best (l : list evaluation) : option evaluation :=
  match l with
  | [] => None
  | e :: l' =>
      match best l' with
      | None => Some e
      | Some b =>
          if Qle_bool (ev_fitness e) (ev_fitness b) then Some e else Some b
      end
  end.

Section Optimizer.

(** pymoo's algorithm is a third-party black box: the vector it
    proposes next, given the evaluations so far. *)
Variable propose : CMAES -> list (list Q * Q) -> list Q.

(** The calibration parameters [SWATProblem] hands to the scoring
    function for a vector: not among the files, and the spec does not
    say how they are built. *)
Variable encode : pyval -> list Q -> pyval.

(** Modelled from the spec: one evaluation by [SWATProblem], which is
    not among the files.  "A caller supplies a mapping of calibration
    parameters and a path to a model workspace"; "a user-defined scoring
    function computes a scalar fitness value": the scoring function is
    called on the problem's keyword arguments and the parameters of the
    vector, under the name [param_arg_name], and answers with a pair of
    a scalar and an output location. *)
Definition evaluate (problem : SWATProblem) (x : list Q)
  : prog swatE evaluation :=
  (r <- function_to_evaluate problem
          (<[param_arg_name problem := encode (params problem) x]>
             (kwargs problem)) ;;
   match r with
   | VTuple [fit; out] =>
       match scalar fit with
       | Some q => Ret {| ev_x := x; ev_fitness := q; ev_output := out |}
       | None => Raise (TypeError "fitness")
       end
   | _ => Raise (ValueError "evaluation result")
   end)%py.

(** Modelled from the spec: the optimizer's loop.  "An external
    optimizer repeatedly proposes parameter vectors, invoking the
    scoring function as its objective, until a termination criterion is
    met": [n] more evaluations after those in [seen]. *)
Fixpoint optimize (problem : SWATProblem) (alg : CMAES) (n : nat)
    (seen : list evaluation) : prog swatE (list evaluation) :=
  match n with
  | O => Ret seen
  | S n' =>
      (e <- evaluate problem
              (propose alg (map (fun e => (ev_x e, ev_fitness e)) seen)) ;;
       optimize problem alg n' (seen ++ [e]))%py
  end.

(** Modelled from the spec: [minimize_pymoo] of
    [pySWATPlus.SWATProblemMultimodel], which is not among the files.
    "The caller receives the best parameter vector, its associated
    output location, and its fitness value." *)
Definition minimize_pymoo (problem : SWATProblem) (alg : CMAES)
    (term : Termination) (verbose : bool) : prog swatE pyval :=
  (let 'n_eval n := term in
   seen <- optimize problem alg n [] ;;
   match best seen with
   | None => Raise (ValueError "no evaluation")
   | Some b =>
       Ret (VTuple [VList (map VFloat (ev_x b)); ev_output b;
                    VFloat (ev_fitness b)])
   end)%py.

Variable x0 : list Q.

(** [x, path, error = minimize_pymoo(swat_problem, algorithm,
    termination, verbose=False)] *)
Definition run_the_optimization : prog swatE (pyval * pyval * pyval) :=
  (r <- minimize_pymoo swat_problem (algorithm x0) termination false ;;
   unpack3 r)%py.

End Optimizer.

(** *** What the properties speak of *)

(** A reader and a generator to stand for the answers of calls that were
    never made. *)
Definition nobody : TxtinoutReader := {| root_folder := "" |}.
Definition nothing : Generator := {| gen_id := 0 |}.

(** The answers of the seven calls of one evaluation. *)
Record answers : Type := {
  a_reader : TxtinoutReader;
  a_tmp_path : pyval;
  a_copy : TxtinoutReader;
  a_txt_in_out_result : pyval;
  a_result_reader : TxtinoutReader;
  a_rng : Generator;
  a_x : Q
}.

(** The steps of one evaluation, in order: open the workspace, copy it
    to a temporary directory, open the copy, run the simulation on the
    copy with the calibration parameters, open the result, make a fresh
    generator, draw a number. *)
Definition steps (calibration_params path_to_txtinout : pyval) (a : answers)
  : list (entry swatE) :=
  [ Entry (Reader (TxtinoutReader_init path_to_txtinout)) (inr (a_reader a));
    Entry (Reader (copy_swat (a_reader a) VNone)) (inr (a_tmp_path a));
    Entry (Reader (TxtinoutReader_init (a_tmp_path a))) (inr (a_copy a));
    Entry (Reader (run_swat (a_copy a) calibration_params false))
          (inr (a_txt_in_out_result a));
    Entry (Reader (TxtinoutReader_init (a_txt_in_out_result a)))
          (inr (a_result_reader a));
    Entry (Numpy default_rng) (inr (a_rng a));
    Entry (Numpy (random (a_rng a))) (inr (a_x a)) ].

(** The same call, answered with an exception. *)
Definition failed {E} (e : exn) (t : entry E) : entry E :=
  match t with Entry c _ => Entry c (inl e) end.

(** The pair the steps end with: the number drawn, and the folder of the
    result under its label. *)
Definition returned (a : answers) : pyval :=
  VTuple [VFloat (a_x a);
          VDict [("test_calibration", VPath (root_folder (a_result_reader a)))]].

(** An evaluation result: a pair of a scalar and a mapping from labels
    to locations. *)
Definition is_scalar (v : pyval) : bool :=
  match v with
  | VInt _ => true
  | VFloat _ => true
  | _ => false
  end.

Definition is_location (v : pyval) : bool :=
  match v with
  | VStr _ => true
  | VPath _ => true
  | _ => false
  end.

Definition is_evaluation_result (v : pyval) : bool :=
  match v with
  | VTuple [fit; VDict m] =>
      is_scalar fit && forallb (fun kv => is_location (snd kv)) m
  | _ => false
  end.

(** A calibration parameter specification: a mapping from a file name to
    a pair of an identifier column name and a list of tuples (row
    identifier, column name, lower bound, upper bound). *)
Definition is_bounds_row (v : pyval) : bool :=
  match v with
  | VTuple [VStr _; VStr _; lower; upper] => is_scalar lower && is_scalar upper
  | _ => false
  end.

Definition is_file_spec (v : pyval) : bool :=
  match v with
  | VTuple [VStr _; VList rows] => forallb is_bounds_row rows
  | _ => false
  end.

Definition is_calibration_spec (v : pyval) : bool :=
  match v with
  | VDict m => forallb (fun kv => is_file_spec (snd kv)) m
  | _ => false
  end.

(** The calibration parameters a call hands to the runner, if it is a
    call of [run_swat]. *)
Definition runner_params (t : entry swatE) : option pyval :=
  match t with
  | Entry c _ =>
      match c with
      | Reader rc =>
          match rc with
          | run_swat _ p _ => Some p
          | _ => None
          end
      | Numpy _ => None
      end
  end.

(** The generator a call draws from, if it is a call of [random]. *)
Definition drawn_from (t : entry swatE) : option Generator :=
  match t with
  | Entry c _ =>
      match c with
      | Reader _ => None
      | Numpy nc =>
          match nc with
          | random g => Some g
          | default_rng => None
          end
      end
  end.

(** The directory a call runs the simulation in, if it is a call of
    [run_swat]. *)
Definition runner_folder (t : entry swatE) : option string :=
  match t with
  | Entry c _ =>
      match c with
      | Reader rc =>
          match rc with
          | run_swat self _ _ => Some (root_folder self)
          | _ => None
          end
      | Numpy _ => None
      end
  end.

End Notebook.

(** ** The publish workflow: [.github/workflows/publish.yml] *)

Module Workflow.

(** *** The file as data *)

(** A word of the file: literal text, a shell variable [$x], the shell
    expansion [${x#pattern}], or a workflow expression [${{ e }}]. *)
Inductive part : Type :=
| Lit (s : string)
| Var (x : string)
| StripPrefix (x pattern : string)
| Expr (e : string).

Definition word : Type := list part.

(** A line of a [run:] script: an assignment, an [echo] (to the standard
    output, or appended with [>>] to the file a word names), or the call
    of an external command with its arguments. *)
Inductive command : Type :=
| Assign (x : string) (w : word)
| Echo (w : word) (append_to : option word)
| Exec (argv : list word).

Inductive action : Type :=
| Uses (a : string) (with_ : list (string * word))
| RunScript (script : list command).

Record step : Type := {
  step_name : string;
  step_id : option string;
  step_env : list (string * word);
  step_action : action
}.

Record job : Type := {
  job_id : string;
  runs_on : string;
  permissions : list (string * string);
  needs : list string;
  steps : list step
}.

(** The filters of [on: push:]; an absent key is [None]. *)
Record push_filter : Type := {
  branches : option (list string);
  tags : option (list string)
}.

Record workflow : Type := {
  name : string;
  on_push : option push_filter;
  on_other : list string;
  jobs : list job
}.

Definition get_version : step :=
  {| step_name := "Verify version from tag";
     step_id := Some "get_version";
     step_env := [];
     step_action := RunScript
       [ Assign "TAG_VERSION" [StripPrefix "GITHUB_REF" "refs/tags/v"];
         Echo [Lit "VERSION="; Var "TAG_VERSION"] (Some [Var "GITHUB_ENV"]);
         Echo [Lit "Publishing version: "; Var "TAG_VERSION"] None ] |}.

Definition build_and_publish : job :=
  {| job_id := "build-and-publish";
     runs_on := "ubuntu-latest";
     permissions := [("contents", "write")];
     needs := [];
     steps :=
       [ {| step_name := "Checkout repository";
            step_id := None;
            step_env := [];
            step_action := Uses "actions/checkout@v4" [("fetch-depth", [Lit "0"])] |};
         {| step_name := "Set up Python";
            step_id := None;
            step_env := [];
            step_action :=
              Uses "actions/setup-python@v4" [("python-version", [Lit "3.x"])] |};
         {| step_name := "Install dependencies";
            step_id := None;
            step_env := [];
            step_action := RunScript
              [ Exec [[Lit "python"]; [Lit "-m"]; [Lit "pip"]; [Lit "install"];
                      [Lit "--upgrade"]; [Lit "pip"]];
                Exec [[Lit "pip"]; [Lit "install"]; [Lit "build"]; [Lit "twine"];
                      [Lit "setuptools-scm"]] ] |};
         get_version;
         {| step_name := "Build package (pyproject.toml)";
            step_id := None;
            step_env := [];
            step_action := RunScript
              [ Exec [[Lit "python"]; [Lit "-m"]; [Lit "build"]] ] |};
         {| step_name := "Publish to PyPI";
            step_id := None;
            step_env := [ ("TWINE_USERNAME", [Expr "secrets.PYPI_USERNAME"]);
                          ("TWINE_PASSWORD", [Expr "secrets.PYPI_PASSWORD"]) ];
            step_action := RunScript
              [ Exec [[Lit "twine"]; [Lit "upload"]; [Lit "dist/*"]] ] |};
         {| step_name := "Create GitHub Release";
            step_id := None;
            step_env := [ ("GITHUB_TOKEN", [Expr "secrets.GITHUB_TOKEN"]) ];
            step_action := RunScript
              [ Exec [[Lit "gh"]; [Lit "release"]; [Lit "create"];
                      [Expr "github.ref_name"]; [Lit "dist/*"];
                      [Lit "--title"];
                      [Lit "Release "; Expr "github.ref_name"];
                      [Lit "--notes"];
                      [Lit "Automated release for version ";
                       Expr "github.ref_name"]] ] |} ] |}.

Definition deploy_docs : job :=
  {| job_id := "deploy-docs";
     runs_on := "ubuntu-latest";
     permissions := [("contents", "write")];
     needs := ["build-and-publish"];
     steps :=
       [ {| step_name := "Checkout repository";
            step_id := None;
            step_env := [];
            step_action := Uses "actions/checkout@v4" [] |};
         {| step_name := "Set up Python";
            step_id := None;
            step_env := [];
            step_action :=
              Uses "actions/setup-python@v4" [("python-version", [Lit "3.x"])] |};
         {| step_name := "Install MkDocs and dependencies";
            step_id := None;
            step_env := [];
            step_action := RunScript
              [ Exec [[Lit "pip"]; [Lit "install"]; [Lit "mkdocs"];
                      [Lit "mkdocs-material"]; [Lit "mkdocstrings"];
                      [Lit "mkdocstrings-python"]; [Lit "mkdocs-jupyter"];
                      [Lit "pymdown-extensions"]] ] |};
         {| step_name := "Build MkDocs documentation";
            step_id := None;
            step_env := [];
            step_action := RunScript
              [ Exec [[Lit "mkdocs"]; [Lit "build"]; [Lit "--site-dir"];
                      [Lit "public"]] ] |};
         {| step_name := "Deploy to GitHub Pages";
            step_id := None;
            step_env := [];
            step_action :=
              Uses "peaceiris/actions-gh-pages@v3"
                [ ("github_token", [Expr "secrets.GITHUB_TOKEN"]);
                  ("publish_dir", [Lit "./public"]) ] |} ] |}.

Definition publish : workflow :=
  {| name := "Publish to PyPI and GitHub Release";
     on_push := Some {| branches := None; tags := Some ["v*"] |};
     on_other := [];
     jobs := [build_and_publish; deploy_docs] |}.

(** *** Patterns *)

(** A pattern is a sequence of characters that stand for themselves and
    of stars; a star matches any run of characters, across [/] or not. *)
Inductive atom : Type :=
| Char (c : ascii)
| Star (crosses_slash : bool).

Definition star_takes (crosses_slash : bool) (c : ascii) : bool :=
  crosses_slash || negb (Ascii.eqb c "/").

Fixpoint glob_match (p : list atom) (s : string) : bool :=
  match p with
  | [] => match s with EmptyString => true | String _ _ => false end
  | Char c :: p' =>
      match s with
      | EmptyString => false
      | String c' s' => Ascii.eqb c c' && glob_match p' s'
      end
  | Star slash :: p' =>
      (fix star (s : string) : bool :=
         glob_match p' s ||
         match s with
         | EmptyString => false
         | String c s' => star_takes slash c && star s'
         end) s
  end.

(** The filter patterns of a workflow, as GitHub reads them: [*] matches
    any run of characters but [/], [**] any run of characters.  The other
    special characters of filter patterns do not occur in this file and
    are read as themselves. *)
Fixpoint filter_pattern (s : string) : list atom :=
  match s with
  | EmptyString => []
  | String c s' =>
      if Ascii.eqb c "*" then
        match s' with
        | String c' s'' =>
            if Ascii.eqb c' "*" then Star true :: filter_pattern s''
            else Star false :: filter_pattern s'
        | EmptyString => [Star false]
        end
      else Char c :: filter_pattern s'
  end.

(** The patterns of the shell's [${x#pattern}]: [*] matches any run of
    characters; the other special characters do not occur in this file. *)
Fixpoint shell_pattern (s : string) : list atom :=
  match s with
  | EmptyString => []
  | String c s' =>
      (if Ascii.eqb c "*" then Star true else Char c) :: shell_pattern s'
  end.

(** [${x#pattern}]: the value without its shortest prefix that matches
    the pattern, or the value itself when no prefix matches. *)
Fixpoint after_shortest_prefix (p : list atom) (seen rest : string)
  : option string :=
  if glob_match p seen then Some rest
  else
    match rest with
    | EmptyString => None
    | String c rest' => after_shortest_prefix p (seen +:+ String c "") rest'
    end.

Definition strip_prefix (p : list atom) (value : string) : string :=
  default value (after_shortest_prefix p "" value).

(** *** What starts the workflow *)

Inductive git_ref : Type :=
| Branch (b : string)
| Tag (t : string).

(** What happens in the repository: a branch or a tag is pushed, or an
    event of another kind occurs. *)
Inductive event : Type :=
| Push (r : git_ref)
| Other (event_name : string).

Definition matches_any (patterns : list string) (s : string) : bool :=
  existsb (fun p => glob_match (filter_pattern p) s) patterns.

(** GitHub's reading of [on:].  A push starts the workflow when the ref it
    carries passes the filter of its kind; with a filter for one kind of
    ref only, pushes of the other kind start nothing; with no filter every
    push does. *)
Definition triggered (wf : workflow) (ev : event) : bool :=
  match ev with
  | Push r =>
      match on_push wf with
      | None => false
      | Some f =>
          match r with
          | Tag t =>
              match tags f with
              | Some patterns => matches_any patterns t
              | None => match branches f with None => true | Some _ => false end
              end
          | Branch b =>
              match branches f with
              | Some patterns => matches_any patterns b
              | None => match tags f with None => true | Some _ => false end
              end
          end
      end
  | Other n => existsb (String.eqb n) (on_other wf)
  end.

(** *** Running the jobs *)

Inductive status : Type :=
| Success
| Failure
| Skipped.

Definition succeeded (s : status) : bool :=
  match s with Success => true | _ => false end.

(** One line of the run's log: the job, the step and whether it
    succeeded. *)
Record line : Type := Line {
  line_job : string;
  line_step : string;
  line_ok : bool
}.

Section Run.

(** Whether a step of a job succeeds is up to the actions and commands
    it runs. *)
Variable ok : string -> step -> bool.

(** The steps of a job run in order; the first one that fails ends the
    job (no step of this file has a condition of its own). *)
Fixpoint run_steps (jid : string) (l : list step) : list line * bool :=
  match l with
  | [] => ([], true)
  | s :: l' =>
      if ok jid s then
        let '(log, b) := run_steps jid l' in
        (Line jid (step_name s) true :: log, b)
      else ([Line jid (step_name s) false], false)
  end.

(** The first job all of whose needed jobs have ended, with the others. *)
Fixpoint pick (pending : list job) (ended : gmap string status)
  : option (job * list job) :=
  match pending with
  | [] => None
  | j :: rest =>
      if forallb (fun n => bool_decide (is_Some (ended !! n))) (needs j)
      then Some (j, rest)
      else
        match pick rest ended with
        | Some (j', rest') => Some (j', j :: rest')
        | None => None
        end
  end.

(** A job runs once the jobs it needs have ended, and only if all of
    them succeeded; otherwise it is skipped. *)
Fixpoint run_jobs (fuel : nat) (pending : list job)
    (ended : gmap string status) (log : list line)
  : gmap string status * list line :=
  match fuel with
  | O => (ended, log)
  | S fuel' =>
      match pick pending ended with
      | None => (ended, log)
      | Some (j, rest) =>
          if forallb (fun n => succeeded (default Skipped (ended !! n)))
               (needs j)
          then
            let '(l, b) := run_steps (job_id j) (steps j) in
            run_jobs fuel' rest
              (<[job_id j := if b then Success else Failure]> ended)
              (log ++ l)
          else run_jobs fuel' rest (<[job_id j := Skipped]> ended) log
      end
  end.

Definition run_workflow (wf : workflow) : gmap string status * list line :=
  run_jobs (length (jobs wf)) (jobs wf) ∅ [].

End Run.

(** *** Running a script *)

Definition LF : ascii := "010"%char.

Fixpoint has_char (c : ascii) (s : string) : bool :=
  match s with
  | EmptyString => false
  | String c' s' => Ascii.eqb c' c || has_char c s'
  end.

Record shell : Type := {
  vars : gmap string string;
  files : gmap string string;
  stdout : list string
}.

Section Script.

(** The values of the workflow expressions [${{ e }}]. *)
Variable context : string -> string.

Definition expand_part (sh : shell) (p : part) : string :=
  match p with
  | Lit s => s
  | Var x => default "" (vars sh !! x)
  | StripPrefix x pattern =>
      strip_prefix (shell_pattern pattern) (default "" (vars sh !! x))
  | Expr e => context e
  end.

Definition expand (sh : shell) (w : word) : string :=
  String.concat "" (map (expand_part sh) w).

Definition exec_command (sh : shell) (c : command) : shell :=
  match c with
  | Assign x w =>
      {| vars := <[x := expand sh w]> (vars sh);
         files := files sh;
         stdout := stdout sh |}
  | Echo w None =>
      {| vars := vars sh;
         files := files sh;
         stdout := stdout sh ++ [expand sh w] |}
  | Echo w (Some target) =>
      let f := expand sh target in
      {| vars := vars sh;
         files :=
           <[f := default "" (files sh !! f) +:+ expand sh w +:+ String LF ""]>
             (files sh);
         stdout := stdout sh |}
  | Exec _ => sh
  end.

Definition run_script (sh : shell) (script : list command) : shell :=
  fold_left exec_command script sh.

(** The runner reads the file [$GITHUB_ENV] names once the step is over:
    every line [NAME=value] sets a variable of the environment of the
    steps that follow. *)
Fixpoint lines (s : string) : list string :=
  match s with
  | EmptyString => []
  | String c s' =>
      if Ascii.eqb c LF then "" :: lines s'
      else
        match lines s' with
        | [] => [String c ""]
        | l :: ls => String c l :: ls
        end
  end.

Fixpoint split_at (sep : ascii) (s : string) : option (string * string) :=
  match s with
  | EmptyString => None
  | String c s' =>
      if Ascii.eqb c sep then Some ("", s')
      else
        match split_at sep s' with
        | Some (l, r) => Some (String c l, r)
        | None => None
        end
  end.

Definition set_env (env : gmap string string) (l : string)
  : gmap string string :=
  match split_at "=" l with
  | Some (x, v) => <[x := v]> env
  | None => env
  end.

Definition env_of_file (content : string) : gmap string string :=
  fold_left set_env (lines content) ∅.

Definition exported (s : step) (sh : shell) : gmap string string :=
  match step_action s with
  | Uses _ _ => ∅
  | RunScript script =>
      let sh' := run_script sh script in
      env_of_file
        (default "" (files sh' !! default "" (vars sh' !! "GITHUB_ENV")))
  end.

End Script.

End Workflow.

(** ** A world to run the definitions in *)

Module Scenario.

Import Notebook.

(** A simulation that writes one output file and succeeds. *)
Definition simulate (params : pyval) (files : gmap string string)
  : gmap string string * option exn :=
  (<["channel_sd_day.txt" := "simulated"]> files, None).

(** A file system with the workspace of the notebook in it. *)
Definition fs : gmap string (gmap string string) :=
  {[ txtinout_folder := {[ "file.cio" := "master" ]} ]}.

(** A generator that keeps its seed as its state and yields the upper 53
    of its 64 bits, scaled by 2^-53. *)
Definition next_double (g : Z) : Q :=
  Qmake (Z.shiftr (g mod 2 ^ 64) 11) (2 ^ 53).

Definition numpy : numpy_state :=
  {| entropy := fun n => (987654321098765 - Z.of_nat n * 2 ^ 40)%Z;
     drawn := 0;
     generators := ∅ |}.

Definition packages
  : handler swatE (gmap string (gmap string string) * numpy_state) :=
  swat_handler (reader_handler simulate)
    (numpy_handler (fun seed => seed) Z.succ next_double).

(** The calibration parameters of one vector, in the format the docstring
    of the objective function gives: [{filename: (id_col, [(id, col,
    value)])}]. *)
Fixpoint set_values (rows : list pyval) (x : list Q) : list pyval * list Q :=
  match rows, x with
  | VTuple [id; col; _; _] :: rows', q :: x' =>
      let '(r, rest) := set_values rows' x' in
      (VTuple [id; col; VFloat q] :: r, rest)
  | _, _ => ([], x)
  end.

Fixpoint encode_files (m : list (string * pyval)) (x : list Q)
  : list (string * pyval) :=
  match m with
  | [] => []
  | (f, VTuple [id_col; VList rows]) :: m' =>
      let '(r, rest) := set_values rows x in
      (f, VTuple [id_col; VList r]) :: encode_files m' rest
  | kv :: m' => kv :: encode_files m' x
  end.

Definition encode (spec : pyval) (x : list Q) : pyval :=
  match spec with
  | VDict m => VDict (encode_files m x)
  | _ => spec
  end.

(** An algorithm that proposes its start vector, then moves each
    coordinate by a tenth for every evaluation made. *)
Definition propose (alg : CMAES) (seen : list (list Q * Q)) : list Q :=
  map (fun q => q + inject_Z (Z.of_nat (length seen)) / 10)%Q (cmaes_x0 alg).

Definition x0 : list Q := [45 # 1; 45 # 100]%Q.

Definition dict_of_params : gmap string pyval :=
  <["calibration_params" := encode (params swat_problem) x0]>
    (kwargs swat_problem).

End Scenario.

(** ** The runner's side of a workflow run *)

Module Runner.

Import Workflow.

(** The value GitHub gives [GITHUB_REF] on a push: the full name of the
    ref pushed. *)
Definition github_ref (r : git_ref) : string :=
  match r with
  | Branch b => "refs/heads/" +:+ b
  | Tag t => "refs/tags/" +:+ t
  end.

(** The commands of a step that runs a script. *)
Definition script_of (s : step) : list command :=
  match step_action s with
  | RunScript script => script
  | Uses _ _ => []
  end.

(** A file made of the given lines, each ended by a line feed. *)
Definition unlines (ls : list string) : string :=
  fold_right (fun l rest => l +:+ String LF rest) "" ls.

(** The steps of a workflow in the order of the file, each with its job. *)
Definition job_lines (j : job) : list (string * string) :=
  map (fun s => (job_id j, step_name s)) (steps j).

Definition file_order (wf : workflow) : list (string * string) :=
  flat_map job_lines (jobs wf).

Definition line_names (l : line) : string * string :=
  (line_job l, line_step l).

End Runner.

(** * The properties *)

(** ** Runs of programs *)

Module PyFacts.

(** Running [p] and then [f]: the run of [p], followed by the run of [f]
    on its value, or the run of [p] alone when it raises. *)
Lemma exec_bind {E W A B} (h : handler E W) (p : prog E A)
    (f : A -> prog E B) (w : W) :
  exec h (bind p f) w =
  match outcome (exec h p w) with
  | inl e => Run (inl e) (final (exec h p w)) (trace (exec h p w))
  | inr a =>
      let r := exec h (f a) (final (exec h p w)) in
      Run (outcome r) (final r) (trace (exec h p w) ++ trace r)
  end.
Proof.
  revert w. induction p as [a | e | X c k IH]; intros w; cbn [bind exec].
  - cbn [outcome final trace app]. destruct (exec h (f a) w); reflexivity.
  - reflexivity.
  - destruct (h X c w) as [[e | x] w']; [reflexivity|].
    rewrite IH. cbn [logged outcome final trace].
    destruct (outcome (exec h (k x) w')); reflexivity.
Qed.

Lemma exec_call {E W A X} (h : handler E W) (c : E X) (k : X -> prog E A)
    (w : W) :
  exec h (bind (call c) k) w =
  match h X c w with
  | (inl e, w') => Run (inl e) w' [Entry c (inl e)]
  | (inr x, w') => logged (Entry c (inr x)) (exec h (k x) w')
  end.
Proof. reflexivity. Qed.

End PyFacts.

(** ** The objective function *)

Module NotebookFacts.

Import Notebook PyFacts.

(** Case analysis on the answer to the call the run is waiting for. *)
Ltac answer_call x w' :=
  rewrite exec_call;
  match goal with
  | |- context [ ?h ?X ?c ?w ] =>
      lazymatch type of h with handler _ _ => idtac end;
      let e := fresh "e" in
      let H := fresh "H" x in
      destruct (h X c w) as [[e | x] w'] eqn:H; cbn [outcome trace final logged]
  end.

Ltac stopped_at n a :=
  exists a; exists n; eexists; split; reflexivity.

(** C1. Every evaluation issues its calls in the order of [steps]: it
    opens the workspace at [path_to_txtinout], copies it to a temporary
    directory, opens the copy, runs the simulation on the copy with the
    calibration parameters it was given, opens the result, makes a fresh
    generator and draws a number.  It stops at the first call that raises;
    otherwise it returns the number drawn, which no call has derived from
    the output of the simulation, with the folder of the result. *)
Theorem function_to_minimize_steps {W} (h : handler swatE W) (w : W)
    (dict_of_params : gmap string pyval) (calibration_params path_to_txtinout : pyval) :
  dict_of_params !! "calibration_params" = Some calibration_params ->
  dict_of_params !! "path_to_txtinout" = Some path_to_txtinout ->
  let r := exec h (function_to_minimize dict_of_params) w in
  exists a : answers,
    match outcome r with
    | inr v =>
        trace r = steps calibration_params path_to_txtinout a /\ v = returned a
    | inl e =>
        exists n t,
          steps calibration_params path_to_txtinout a !! n = Some t /\
          trace r = take n (steps calibration_params path_to_txtinout a)
                      ++ [failed e t]
    end.
Proof.
  intros Hcp Hpath. unfold function_to_minimize, getitem.
  rewrite Hcp, Hpath. cbn [bind].
  answer_call a1 w1.
  { stopped_at 0%nat (Build_answers nobody VNone nobody VNone nobody nothing 0). }
  answer_call a2 w2.
  { stopped_at 1%nat (Build_answers a1 VNone nobody VNone nobody nothing 0). }
  answer_call a3 w3.
  { stopped_at 2%nat
      (Build_answers a1 a2 nobody VNone nobody nothing 0). }
  answer_call a4 w4.
  { stopped_at 3%nat (Build_answers a1 a2 a3 VNone nobody nothing 0). }
  answer_call a5 w5.
  { stopped_at 4%nat
      (Build_answers a1 a2 a3 a4 nobody nothing 0). }
  answer_call a6 w6.
  { stopped_at 5%nat
      (Build_answers a1 a2 a3 a4 a5 nothing 0). }
  answer_call a7 w7.
  { stopped_at 6%nat
      (Build_answers a1 a2 a3 a4 a5 a6 0). }
  exists (Build_answers a1 a2 a3 a4 a5 a6 a7).
  split; reflexivity.
Qed.

(** The run of an evaluation that returns: the chain of answered calls,
    world by world. *)
Lemma returning_run {W} (h : handler swatE W) (w : W)
    (d : gmap string pyval) (v : pyval) :
  outcome (exec h (function_to_minimize d) w) = inr v ->
  exists cp path a w1 w2 w3 w4 w5 w6,
    d !! "calibration_params" = Some cp /\
    d !! "path_to_txtinout" = Some path /\
    h _ (Reader (TxtinoutReader_init path)) w = (inr (a_reader a), w1) /\
    h _ (Reader (copy_swat (a_reader a) VNone)) w1 = (inr (a_tmp_path a), w2) /\
    h _ (Reader (TxtinoutReader_init (a_tmp_path a))) w2 = (inr (a_copy a), w3) /\
    h _ (Reader (run_swat (a_copy a) cp false)) w3
      = (inr (a_txt_in_out_result a), w4) /\
    h _ (Reader (TxtinoutReader_init (a_txt_in_out_result a))) w4
      = (inr (a_result_reader a), w5) /\
    h _ (Numpy default_rng) w5 = (inr (a_rng a), w6) /\
    h _ (Numpy (random (a_rng a))) w6
      = (inr (a_x a), final (exec h (function_to_minimize d) w)) /\
    trace (exec h (function_to_minimize d) w) = steps cp path a /\
    v = returned a.
Proof.
  unfold function_to_minimize, getitem.
  destruct (d !! "calibration_params") as [cp|]; [|discriminate].
  destruct (d !! "path_to_txtinout") as [path|]; [|discriminate].
  cbn [bind].
  answer_call a1 w1; [discriminate|].
  answer_call a2 w2; [discriminate|].
  answer_call a3 w3; [discriminate|].
  answer_call a4 w4; [discriminate|].
  answer_call a5 w5; [discriminate|].
  answer_call a6 w6; [discriminate|].
  answer_call a7 w7; [discriminate|].
  intros [= <-].
  exists cp, path,
    (Build_answers a1 a2 a3 a4 a5 a6 a7),
    w1, w2, w3, w4, w5, w6.
  repeat split; assumption || reflexivity.
Qed.

(** C4. What an evaluation returns is a pair of a scalar fitness and a
    mapping from a label to an output location: the float drawn, and the
    folder of the result under the label [test_calibration]. *)
Theorem evaluation_result_shape {W} (h : handler swatE W) (w : W)
    (dict_of_params : gmap string pyval) (v : pyval) :
  outcome (exec h (function_to_minimize dict_of_params) w) = inr v ->
  is_evaluation_result v = true /\
  exists (fitness : Q) (location : string),
    v = VTuple [VFloat fitness; VDict [("test_calibration", VPath location)]].
Proof.
  intros Hv.
  destruct (returning_run h w dict_of_params v Hv)
    as (cp & path & a & w1 & w2 & w3 & w4 & w5 & w6 & H).
  destruct H as (_ & _ & _ & _ & _ & _ & _ & _ & _ & _ & ->).
  split; [reflexivity|].
  exists (a_x a), (root_folder (a_result_reader a)). reflexivity.
Qed.

(** C5. The parameter specification the notebook gives to the problem is
    a mapping from a file name to a pair of an identifier column name and
    a list of tuples (row identifier, column name, lower bound, upper
    bound).  It goes to [SWATProblem]; what the runner receives is not
    this specification but the calibration parameters that the objective
    function finds under [calibration_params], and these it hands on as
    they are: every call of [run_swat] of an evaluation carries exactly
    them, and an evaluation that returns has made exactly one such
    call. *)
Theorem calibration_params_pass_through {W} (h : handler swatE W) (w : W)
    (dict_of_params : gmap string pyval) (calibration_params : pyval) :
  dict_of_params !! "calibration_params" = Some calibration_params ->
  let r := exec h (function_to_minimize dict_of_params) w in
  is_calibration_spec (params swat_problem) = true /\
  Forall (fun p => p = calibration_params) (omap runner_params (trace r)) /\
  (forall v, outcome r = inr v ->
             omap runner_params (trace r) = [calibration_params]).
Proof.
  intros Hcp r. split; [reflexivity|]. split.
  - subst r. unfold function_to_minimize, getitem. rewrite Hcp. cbn [bind].
    destruct (dict_of_params !! "path_to_txtinout") as [path|];
      [|constructor].
    cbn [bind].
    answer_call a1 w1; [repeat constructor|].
    answer_call a2 w2; [repeat constructor|].
    answer_call a3 w3; [repeat constructor|].
    answer_call a4 w4; [repeat constructor|].
    answer_call a5 w5; [repeat constructor|].
    answer_call a6 w6; [repeat constructor|].
    answer_call a7 w7; repeat constructor.
  - intros v Hv.
    destruct (returning_run h w dict_of_params v Hv)
      as (cp & path & a & w1 & w2 & w3 & w4 & w5 & w6 & H).
    destruct H as (Hcp' & _ & _ & _ & _ & _ & _ & _ & _ & Htr & _).
    subst r. rewrite Htr. rewrite Hcp in Hcp'. injection Hcp' as <-.
    reflexivity.
Qed.

Section Frame.

Variable simulate :
  pyval -> gmap string string -> gmap string string * option exn.
Context {W2 : Type}.
Variable hn : handler numpyE W2.

(** C3. An evaluation of the objective on an existing workspace executes
    the simulation, once, in a directory that did not exist before: a
    temporary directory, other than the original, in which it finds a
    copy of the original's files; and when the simulation and numpy
    answer, the evaluation returns.  The workspace at [path_to_txtinout]
    is left as it was, and every directory that existed with it, whether
    the evaluation returns or raises. *)
Theorem original_workspace_unchanged (dict_of_params : gmap string pyval)
    (fs : gmap string (gmap string string)) (w2 : W2)
    (calibration_params path_to_txtinout : pyval) (original : string) :
  dict_of_params !! "calibration_params" = Some calibration_params ->
  dict_of_params !! "path_to_txtinout" = Some path_to_txtinout ->
  path_of path_to_txtinout = Some original ->
  let r := exec (swat_handler (reader_handler simulate) hn)
             (function_to_minimize dict_of_params) (fs, w2) in
  fst (final r) !! original = fs !! original /\
  (forall q, is_Some (fs !! q) -> fst (final r) !! q = fs !! q) /\
  Forall (fun dir =>
            dir <> original /\ fs !! dir = None /\
            exists files,
              fs !! original = Some files /\
              fst (final r) !! dir
                = Some (fst (simulate calibration_params files)))
         (omap runner_folder (trace r)) /\
  (forall v, outcome r = inr v ->
             exists dir, omap runner_folder (trace r) = [dir]) /\
  (forall files,
      fs !! original = Some files ->
      omap runner_folder (trace r) = [fresh (dom fs)] /\
      (forall g w2' x w2'',
          snd (simulate calibration_params files) = None ->
          hn _ default_rng w2 = (inr g, w2') ->
          hn _ (random g) w2' = (inr x, w2'') ->
          outcome r
          = inr (VTuple [VFloat x;
                         VDict [("test_calibration",
                                 VPath (fresh (dom fs)))]]))).
Proof.
  intros Hcp Hpath Hp. unfold function_to_minimize, getitem.
  rewrite Hcp, Hpath. cbn [bind].
  rewrite exec_call. cbn [swat_handler reader_handler fst snd].
  rewrite Hp. destruct (fs !! original) as [files|] eqn:Hfiles.
  2:{ cbn. split; [assumption|]. split; [reflexivity|].
      split; [constructor|]. split; discriminate. }
  cbn [logged final outcome trace].
  rewrite exec_call. cbn [swat_handler reader_handler fst snd root_folder].
  rewrite Hfiles. cbn [logged final outcome trace].
  pose proof (is_fresh (dom fs)) as Hnew.
  rewrite not_elem_of_dom in Hnew.
  set (tmp := fresh (dom fs)) in *.
  assert (Hne : tmp <> original) by congruence.
  rewrite exec_call.
  cbn [swat_handler reader_handler fst snd root_folder path_of].
  rewrite lookup_insert_eq. cbn [logged final outcome trace].
  rewrite exec_call.
  cbn [swat_handler reader_handler fst snd root_folder path_of].
  rewrite lookup_insert_eq.
  destruct (simulate calibration_params files) as [files' err] eqn:Hsim.
  rewrite insert_insert_eq.
  assert (Hframe : forall q, is_Some (fs !! q) ->
                             <[tmp := files']> fs !! q = fs !! q).
  { intros q [x Hq]. apply lookup_insert_ne. congruence. }
  assert (Hran : Forall (fun dir =>
            dir <> original /\ fs !! dir = None /\
            exists files0,
              Some files = Some files0 /\
              <[tmp := files']> fs !! dir
                = Some (fst (simulate calibration_params files0))) [tmp]).
  { repeat constructor; try assumption. exists files. split; [reflexivity|].
    rewrite Hsim. apply lookup_insert_eq. }
  destruct err as [e|].
  { cbn. split; [rewrite lookup_insert_ne by assumption; assumption|].
    split; [exact Hframe|]. split; [exact Hran|]. split; [discriminate|].
    intros files0 [= <-]. split; [reflexivity|].
    intros g0 w0 x0 w0'. rewrite Hsim. discriminate. }
  cbn [logged final outcome trace].
  rewrite exec_call.
  cbn [swat_handler reader_handler fst snd root_folder path_of].
  rewrite lookup_insert_eq. cbn [logged final outcome trace].
  rewrite exec_call. cbn [swat_handler fst snd].
  destruct (hn _ default_rng w2) as [[e | g] w2'].
  { cbn. split; [rewrite lookup_insert_ne by assumption; assumption|].
    split; [exact Hframe|]. split; [exact Hran|]. split; [discriminate|].
    intros files0 [= <-]. split; [reflexivity|].
    intros g0 w0 x0 w0' _ Hg. discriminate. }
  cbn [logged final outcome trace].
  rewrite exec_call. cbn [swat_handler fst snd].
  destruct (hn _ (random g) w2') as [[e | x] w2''] eqn:Hdraw.
  { cbn. split; [rewrite lookup_insert_ne by assumption; assumption|].
    split; [exact Hframe|]. split; [exact Hran|]. split; [discriminate|].
    intros files0 [= <-]. split; [reflexivity|].
    intros g0 w0 x0 w0' _ Hg. injection Hg as <- <-.
    rewrite Hdraw. discriminate. }
  cbn. split; [rewrite lookup_insert_ne by assumption; assumption|].
  split; [exact Hframe|]. split; [exact Hran|].
  split; [intros _ _; eauto|].
  intros files0 [= <-]. split; [reflexivity|].
  intros g0 w0 x0 w0' _ Hg. injection Hg as <- <-.
  rewrite Hdraw. intros [= <- _]. reflexivity.
Qed.
End Frame.

Section Fitness.

Variable seed_state : Z -> Z.
Variable advance : Z -> Z.
Variable next_double : Z -> Q.

(** numpy documents [random()] as a float of the half-open interval
    from 0 to 1. *)
Hypothesis next_double_range :
  forall g, (0 <= next_double g)%Q /\ (next_double g < 1)%Q.

Context {W1 : Type}.

Local Abbreviation numpy := (numpy_handler seed_state advance next_double).

Lemma reader_call_keeps_numpy {X} (hr : handler readerE W1)
    (c : readerE X) w r w' :
  swat_handler hr numpy X (Reader c) w = (r, w') -> snd w' = snd w.
Proof.
  cbn [swat_handler]. destruct (hr X c (fst w)) as [r0 w1].
  intros [= _ <-]. reflexivity.
Qed.

Lemma fresh_draw (hr : handler readerE W1) w g w' x w'' :
  swat_handler hr numpy _ (Numpy default_rng) w = (inr g, w') ->
  swat_handler hr numpy _ (Numpy (random g)) w' = (inr x, w'') ->
  x = next_double (seed_state (entropy (snd w) (drawn (snd w)))) /\
  gen_id g ∉ dom (generators (snd w)).
Proof.
  cbn [swat_handler numpy_handler]. intros [= <- <-].
  cbn [snd gen_id generators]. rewrite lookup_insert_eq.
  intros [= <- _]. split; [reflexivity | apply is_fresh].
Qed.

(** C9. The fitness an evaluation returns is the first float of a
    generator made for this evaluation from fresh entropy: a number from 0
    (included) to 1 (excluded) that the entropy alone determines, so that
    an evaluation with other parameters, on another file system and with
    another reader, returns the same fitness when the entropy is the
    same. *)
Theorem fitness_in_unit_interval (hr : handler readerE W1) (d : gmap string pyval)
    (w1 : W1) (st : numpy_state) (v : pyval) :
  outcome (exec (swat_handler hr numpy) (function_to_minimize d) (w1, st))
    = inr v ->
  exists (q : Q) (location : pyval),
    v = VTuple [VFloat q; location] /\
    (0 <= q)%Q /\ (q < 1)%Q /\
    q = next_double (seed_state (entropy st (drawn st))) /\
    (exists g,
        omap drawn_from
          (trace (exec (swat_handler hr numpy) (function_to_minimize d)
                    (w1, st))) = [g] /\
        gen_id g ∉ dom (generators st)) /\
    (forall (hr' : handler readerE W1) d' w1' v',
        outcome (exec (swat_handler hr' numpy) (function_to_minimize d')
                   (w1', st)) = inr v' ->
        exists location', v' = VTuple [VFloat q; location']).
Proof.
  assert (Hdraw : forall (hr0 : handler readerE W1) d0 w0 v0,
    outcome (exec (swat_handler hr0 numpy) (function_to_minimize d0)
               (w0, st)) = inr v0 ->
    exists a cp path,
      v0 = returned a /\
      trace (exec (swat_handler hr0 numpy) (function_to_minimize d0)
               (w0, st)) = steps cp path a /\
      a_x a = next_double (seed_state (entropy st (drawn st))) /\
      gen_id (a_rng a) ∉ dom (generators st)).
  { intros hr0 d0 w0 v0 Hv.
    destruct (returning_run _ _ _ _ Hv)
      as (cp & path & a & u1 & u2 & u3 & u4 & u5 & u6 & H).
    destruct H as (_ & _ & H1 & H2 & H3 & H4 & H5 & H6 & H7 & Htr & ->).
    apply reader_call_keeps_numpy in H1, H2, H3, H4, H5.
    destruct (fresh_draw _ _ _ _ _ _ H6 H7) as [Hx Hg].
    assert (Hst : snd u5 = st).
    { rewrite H5, H4, H3, H2, H1. reflexivity. }
    rewrite Hst in Hx, Hg. exists a, cp, path. auto. }
  intros Hv. destruct (Hdraw _ _ _ _ Hv) as (a & cp & path & -> & Htr & Hx & Hg).
  exists (a_x a). eexists. split; [reflexivity|].
  rewrite Hx. split; [apply next_double_range|].
  split; [apply next_double_range|]. split; [reflexivity|]. split.
  - exists (a_rng a). rewrite Htr. split; [reflexivity | exact Hg].
  - intros hr' d' w1' v' Hv'.
    destruct (Hdraw _ _ _ _ Hv') as (a' & _ & _ & -> & _ & Hx' & _).
    eexists. unfold returned. rewrite Hx'. reflexivity.
Qed.

End Fitness.

Section Best.

Lemma best_in l b : best l = Some b -> In b l.
Proof.
  revert b. induction l as [|e l IH]; cbn [best]; [discriminate|].
  intros b. destruct (best l) as [b'|].
  - destruct (Qle_bool (ev_fitness e) (ev_fitness b')); intros [= <-].
    + left; reflexivity.
    + right. apply IH. reflexivity.
  - intros [= <-]. left; reflexivity.
Qed.

Lemma best_none l : best l = None -> l = [].
Proof.
  destruct l as [|e l]; [reflexivity|]. cbn [best].
  destruct (best l) as [b'|]; [|discriminate].
  destruct (Qle_bool (ev_fitness e) (ev_fitness b')); discriminate.
Qed.

Lemma best_least l b :
  best l = Some b -> forall e, In e l -> (ev_fitness b <= ev_fitness e)%Q.
Proof.
  revert b. induction l as [|e0 l IH]; cbn [best]; [discriminate|].
  intros b Hb e He. destruct (best l) as [b'|] eqn:Hbest.
  - specialize (IH b' eq_refl).
    destruct (Qle_bool (ev_fitness e0) (ev_fitness b')) eqn:Hle;
      injection Hb as <-.
    + apply Qle_bool_iff in Hle. destruct He as [<- | He].
      * apply Qle_refl.
      * eapply Qle_trans; [exact Hle | apply IH, He].
    + destruct He as [<- | He]; [|apply IH, He].
      apply Qlt_le_weak, Qnot_le_lt. intros Hle'.
      apply Qle_bool_iff in Hle'. congruence.
  - apply best_none in Hbest. subst l. injection Hb as <-.
    destruct He as [<- | []]. apply Qle_refl.
Qed.

End Best.

Section Optimization.

Variable propose : CMAES -> list (list Q * Q) -> list Q.
Variable encode : pyval -> list Q -> pyval.
Context {W : Type}.
Variable h : handler swatE W.

Lemma optimize_length problem alg n seen0 w seen :
  outcome (exec h (optimize propose encode problem alg n seen0) w)
    = inr seen ->
  length seen = (length seen0 + n)%nat.
Proof.
  revert seen0 w. induction n as [|n IH]; intros seen0 w; cbn [optimize exec].
  - cbn [outcome]. intros [= <-]. lia.
  - rewrite exec_bind.
    destruct (outcome (exec h (evaluate encode problem _) w)) as [e|e];
      [discriminate|].
    cbn [outcome]. intros Hrest. apply IH in Hrest.
    rewrite length_app in Hrest. cbn [length] in Hrest. lia.
Qed.

Lemma evaluate_reports x w e :
  outcome (exec h (evaluate encode swat_problem x) w) = inr e ->
  ev_x e = x /\
  exists location, ev_output e = VDict [("test_calibration", VPath location)].
Proof.
  unfold evaluate. rewrite exec_bind.
  change (function_to_evaluate swat_problem) with function_to_minimize.
  destruct (outcome (exec h (function_to_minimize _) w)) as [e0|v] eqn:Hv;
    [discriminate|].
  destruct (returning_run _ _ _ _ Hv)
    as (cp & path & a & w1 & w2 & w3 & w4 & w5 & w6 & H).
  destruct H as (_ & _ & _ & _ & _ & _ & _ & _ & _ & _ & ->).
  cbn [returned scalar exec outcome]. intros [= <-]. cbn [ev_x ev_output].
  eauto.
Qed.

Lemma optimize_outputs alg n seen0 w seen :
  Forall (fun e => exists location,
            ev_output e = VDict [("test_calibration", VPath location)]) seen0 ->
  outcome (exec h (optimize propose encode swat_problem alg n seen0) w)
    = inr seen ->
  Forall (fun e => exists location,
            ev_output e = VDict [("test_calibration", VPath location)]) seen.
Proof.
  revert seen0 w. induction n as [|n IH]; intros seen0 w Hseen0;
    cbn [optimize exec].
  - cbn [outcome]. intros [= <-]. exact Hseen0.
  - rewrite exec_bind.
    destruct (outcome (exec h (evaluate encode swat_problem _) w))
      as [e0|e] eqn:He; [discriminate|].
    cbn [outcome]. apply IH. apply Forall_app. split; [exact Hseen0|].
    constructor; [|constructor]. apply evaluate_reports in He. apply He.
Qed.

(** C2. When the call of [minimize_pymoo] on the problem, the algorithm
    and the termination of the notebook returns, it returns three values,
    which the notebook unpacks as [x, path, error]: the vector of the best
    of the evaluations made (one of least fitness among the
    [n_simulations] evaluations of the run), the mapping to the output
    folder that this evaluation reported, and its fitness. *)
Theorem minimize_pymoo_returns_best (x0 : list Q) (w : W) (v : pyval) :
  outcome (exec h (minimize_pymoo propose encode swat_problem
                     (algorithm x0) termination false) w) = inr v ->
  exists seen b,
    outcome (exec h (optimize propose encode swat_problem (algorithm x0)
                       n_simulations []) w) = inr seen /\
    length seen = n_simulations /\
    In b seen /\
    (forall e, In e seen -> (ev_fitness b <= ev_fitness e)%Q) /\
    (exists location,
        ev_output b = VDict [("test_calibration", VPath location)]) /\
    v = VTuple [VList (map VFloat (ev_x b)); ev_output b;
                VFloat (ev_fitness b)] /\
    outcome (exec h (run_the_optimization propose encode x0) w)
      = inr (VList (map VFloat (ev_x b)), ev_output b, VFloat (ev_fitness b)).
Proof.
  unfold run_the_optimization.
  rewrite (exec_bind h (minimize_pymoo _ _ _ _ _ _)).
  unfold minimize_pymoo, termination. rewrite exec_bind.
  destruct (outcome (exec h (optimize _ _ _ _ _ _) w)) as [e|seen] eqn:Hseen;
    [discriminate|].
  cbn [outcome]. destruct (best seen) as [b|] eqn:Hbest; [|discriminate].
  cbn [exec outcome]. intros [= <-].
  exists seen, b. split; [reflexivity|].
  split; [apply optimize_length in Hseen; exact Hseen|].
  split; [apply best_in, Hbest|].
  split; [apply best_least, Hbest|].
  split.
  - apply optimize_outputs in Hseen; [|constructor].
    rewrite Forall_forall in Hseen. apply Hseen, list_elem_of_In, best_in, Hbest.
  - split; reflexivity.
Qed.

End Optimization.

(** *** The properties on the run of [Scenario] *)

Lemma scenario_returns :
  outcome (exec Scenario.packages
             (function_to_minimize Scenario.dict_of_params)
             (Scenario.fs, Scenario.numpy))
  = inr (VTuple [VFloat (Scenario.next_double 987654321098765);
                 VDict [("test_calibration", VPath "0")]]).
Proof. vm_compute. reflexivity. Qed.

Lemma scenario_next_double_range g :
  (0 <= Scenario.next_double g)%Q /\ (Scenario.next_double g < 1)%Q.
Proof.
  unfold Scenario.next_double, Qle, Qlt. cbn [Qnum Qden].
  rewrite Z.shiftr_div_pow2 by lia.
  pose proof (Z.mod_pos_bound g (2 ^ 64) eq_refl) as Hg.
  assert (0 <= (g mod 2 ^ 64) / 2 ^ 11 < 2 ^ 53)%Z as Hq.
  { split; [apply Z.div_pos; lia|].
    apply Z.div_lt_upper_bound; [reflexivity|].
    change (2 ^ 11 * 2 ^ 53)%Z with (2 ^ 64)%Z. lia. }
  change (Z.pos (2 ^ 53)) with (2 ^ 53)%Z. lia.
Qed.

Lemma function_to_minimize_steps_witness :
  exists a,
    trace (exec Scenario.packages
             (function_to_minimize Scenario.dict_of_params)
             (Scenario.fs, Scenario.numpy))
    = steps (Scenario.encode (params swat_problem) Scenario.x0)
            (VStr txtinout_folder) a /\
    returned a = VTuple [VFloat (Scenario.next_double 987654321098765);
                         VDict [("test_calibration", VPath "0")]].
Proof.
  destruct (function_to_minimize_steps Scenario.packages
              (Scenario.fs, Scenario.numpy) Scenario.dict_of_params
              (Scenario.encode (params swat_problem) Scenario.x0)
              (VStr txtinout_folder) eq_refl eq_refl) as [a Ha].
  rewrite scenario_returns in Ha. destruct Ha as [Htrace Hv].
  exists a. split; [exact Htrace | symmetry; exact Hv].
Defined.

Lemma minimize_pymoo_returns_best_witness :
  outcome (exec Scenario.packages
             (run_the_optimization Scenario.propose Scenario.encode
                Scenario.x0)
             (Scenario.fs, Scenario.numpy))
  = inr (VList [VFloat (451 # 10); VFloat (550 # 1000)],
         VDict [("test_calibration", VPath "1")],
         VFloat (Scenario.next_double (987654321098765 - 2 ^ 40))).
Proof.
  destruct (minimize_pymoo_returns_best Scenario.propose Scenario.encode
              Scenario.packages Scenario.x0 (Scenario.fs, Scenario.numpy)
              (VTuple [VList [VFloat (451 # 10); VFloat (550 # 1000)];
                       VDict [("test_calibration", VPath "1")];
                       VFloat (Scenario.next_double
                                 (987654321098765 - 2 ^ 40))]))
    as (seen & b & _ & _ & _ & _ & _ & Hv & Hrun).
  - vm_compute. reflexivity.
  - injection Hv as Hx Hout Hfit. rewrite Hrun, <- Hx, <- Hout, <- Hfit.
    reflexivity.
Defined.

Lemma original_workspace_unchanged_witness :
  fst (final (exec Scenario.packages
                (function_to_minimize Scenario.dict_of_params)
                (Scenario.fs, Scenario.numpy))) !! txtinout_folder
  = Scenario.fs !! txtinout_folder /\
  omap runner_folder
    (trace (exec Scenario.packages
              (function_to_minimize Scenario.dict_of_params)
              (Scenario.fs, Scenario.numpy)))
  = [fresh (dom Scenario.fs)] /\
  outcome (exec Scenario.packages
             (function_to_minimize Scenario.dict_of_params)
             (Scenario.fs, Scenario.numpy))
  = inr (VTuple [VFloat (Scenario.next_double 987654321098765);
                 VDict [("test_calibration",
                         VPath (fresh (dom Scenario.fs)))]]).
Proof.
  destruct (original_workspace_unchanged Scenario.simulate
              (numpy_handler (fun seed => seed) Z.succ Scenario.next_double)
              Scenario.dict_of_params Scenario.fs Scenario.numpy
              (Scenario.encode (params swat_problem) Scenario.x0)
              (VStr txtinout_folder) txtinout_folder
              eq_refl eq_refl eq_refl)
    as (Hsame & _ & _ & _ & Hruns).
  assert (Hthere : Scenario.fs !! txtinout_folder
                   = Some {[ "file.cio" := "master" ]})
    by (vm_compute; reflexivity).
  destruct (Hruns _ Hthere) as [Hfolder Hreturns].
  split; [exact Hsame|]. split; [exact Hfolder|].
  exact (Hreturns _ _ _ _ eq_refl eq_refl eq_refl).
Defined.

Lemma evaluation_result_shape_witness :
  is_evaluation_result
    (VTuple [VFloat (Scenario.next_double 987654321098765);
             VDict [("test_calibration", VPath "0")]]) = true.
Proof.
  exact (proj1 (evaluation_result_shape Scenario.packages
                  (Scenario.fs, Scenario.numpy) Scenario.dict_of_params _
                  scenario_returns)).
Defined.

Lemma calibration_params_pass_through_witness :
  omap runner_params
    (trace (exec Scenario.packages
              (function_to_minimize Scenario.dict_of_params)
              (Scenario.fs, Scenario.numpy)))
  = [Scenario.encode (params swat_problem) Scenario.x0].
Proof.
  destruct (calibration_params_pass_through Scenario.packages
              (Scenario.fs, Scenario.numpy) Scenario.dict_of_params
              (Scenario.encode (params swat_problem) Scenario.x0) eq_refl)
    as (_ & _ & Hone).
  exact (Hone _ scenario_returns).
Defined.

(** The runner does not receive the specification: in the evaluation of
    the vector [Scenario.x0], on the dictionary that holds the parameters
    of that vector in the format of the docstring ([(id, col, value)]
    rows), [run_swat] is called with these parameters, which are not the
    specification of the problem and do not have its shape. *)
Lemma runner_receives_values_not_the_specification :
  omap runner_params
    (trace (exec Scenario.packages
              (function_to_minimize Scenario.dict_of_params)
              (Scenario.fs, Scenario.numpy)))
  = [VDict [("plants.plt",
             VTuple [VStr "name";
                     VList [VTuple [VStr "bana"; VStr "bm_e"; VFloat (45 # 1)];
                            VTuple [VStr "bana"; VStr "harv_idx";
                                    VFloat (45 # 100)]]])]] /\
  omap runner_params
    (trace (exec Scenario.packages
              (function_to_minimize Scenario.dict_of_params)
              (Scenario.fs, Scenario.numpy)))
  <> [params swat_problem] /\
  is_calibration_spec
    (VDict [("plants.plt",
             VTuple [VStr "name";
                     VList [VTuple [VStr "bana"; VStr "bm_e"; VFloat (45 # 1)];
                            VTuple [VStr "bana"; VStr "harv_idx";
                                    VFloat (45 # 100)]]])]) = false.
Proof.
  assert (Hgot :
    omap runner_params
      (trace (exec Scenario.packages
                (function_to_minimize Scenario.dict_of_params)
                (Scenario.fs, Scenario.numpy)))
    = [VDict [("plants.plt",
               VTuple [VStr "name";
                       VList [VTuple [VStr "bana"; VStr "bm_e";
                                      VFloat (45 # 1)];
                              VTuple [VStr "bana"; VStr "harv_idx";
                                      VFloat (45 # 100)]]])]])
    by (vm_compute; reflexivity).
  split; [exact Hgot|]. split; [|reflexivity].
  rewrite Hgot. unfold swat_problem. cbn [params]. intros H.
  injection H as H. discriminate H.
Qed.

Lemma fitness_in_unit_interval_witness :
  exists q location,
    outcome (exec Scenario.packages
               (function_to_minimize Scenario.dict_of_params)
               (Scenario.fs, Scenario.numpy))
    = inr (VTuple [VFloat q; location]) /\ (0 <= q)%Q /\ (q < 1)%Q.
Proof.
  destruct (fitness_in_unit_interval (fun seed => seed) Z.succ
              Scenario.next_double scenario_next_double_range
              (reader_handler Scenario.simulate) Scenario.dict_of_params
              Scenario.fs Scenario.numpy _ scenario_returns)
    as (q & location & Hv & H0 & H1 & _).
  exists q, location. rewrite <- Hv. split; [exact scenario_returns|].
  split; assumption.
Defined.

End NotebookFacts.

(** ** The publish workflow *)

Module WorkflowFacts.

Import Workflow.

(** *** Patterns *)

Lemma append_cons c s t : String c s +:+ t = String c (s +:+ t).
Proof. reflexivity. Qed.

Lemma append_nil_r s : s +:+ "" = s.
Proof.
  induction s as [|c s IH]; [reflexivity|].
  rewrite append_cons, IH. reflexivity.
Qed.

Lemma append_snoc s c r : (s +:+ String c "") +:+ r = s +:+ String c r.
Proof.
  induction s as [|a s IH]; [reflexivity|].
  rewrite !append_cons, IH. reflexivity.
Qed.

Lemma append_cons_neq s c r : s +:+ String c r <> s.
Proof.
  induction s as [|a s IH]; [discriminate|].
  rewrite append_cons. intros [= H]. exact (IH H).
Qed.

(** A pattern without a star matches itself and nothing else. *)
Lemma glob_match_literal pattern s :
  has_char "*" pattern = false ->
  glob_match (shell_pattern pattern) s = String.eqb pattern s.
Proof.
  revert s. induction pattern as [|c pattern IH]; intros s Hlit.
  - destruct s; reflexivity.
  - cbn [has_char] in Hlit. apply orb_false_iff in Hlit as [Hc Hlit].
    cbn [shell_pattern]. rewrite Hc.
    destruct s as [|c' s]; cbn [glob_match String.eqb]; [reflexivity|].
    rewrite (IH s Hlit). destruct (Ascii.eqb c c'); reflexivity.
Qed.

Lemma after_literal_prefix pattern :
  has_char "*" pattern = false ->
  forall rest seen tail,
    seen +:+ rest = pattern ->
    after_shortest_prefix (shell_pattern pattern) seen (rest +:+ tail)
    = Some tail.
Proof.
  intros Hlit. induction rest as [|c rest IH]; intros seen tail Hsplit.
  - rewrite append_nil_r in Hsplit. subst seen.
    assert (Hself : glob_match (shell_pattern pattern) pattern = true).
    { rewrite glob_match_literal by exact Hlit. apply String.eqb_refl. }
    change ("" +:+ tail) with tail.
    destruct tail; cbn [after_shortest_prefix]; rewrite Hself; reflexivity.
  - assert (Hshort : glob_match (shell_pattern pattern) seen = false).
    { rewrite glob_match_literal by exact Hlit. apply String.eqb_neq.
      rewrite <- Hsplit. apply append_cons_neq. }
    rewrite append_cons. cbn [after_shortest_prefix]. rewrite Hshort.
    apply IH. rewrite append_snoc. exact Hsplit.
Qed.

(** [${x#literal}] on a value that starts with the literal is the rest
    of the value. *)
Lemma strip_literal_prefix pattern tail :
  has_char "*" pattern = false ->
  strip_prefix (shell_pattern pattern) (pattern +:+ tail) = tail.
Proof.
  intros Hlit. unfold strip_prefix.
  rewrite (after_literal_prefix pattern Hlit pattern "" tail eq_refl).
  reflexivity.
Qed.

(** A star that does not cross [/] matches the strings without [/]. *)
Lemma star_matches rest :
  glob_match [Star false] rest = negb (has_char "/" rest).
Proof.
  induction rest as [|c rest IH]; [reflexivity|].
  change (glob_match [Star false] (String c rest))
    with (false || (star_takes false c && glob_match [Star false] rest)).
  rewrite IH. cbn [has_char orb star_takes].
  destruct (Ascii.eqb c "/"); reflexivity.
Qed.

(** The tags the pattern [v*] matches: a [v], then anything without [/]. *)
Lemma version_tag_pattern t :
  glob_match (filter_pattern "v*") t = true <->
  exists rest, t = String "v" rest /\ has_char "/" rest = false.
Proof.
  change (filter_pattern "v*") with [Char "v"; Star false].
  destruct t as [|c rest].
  - split; [discriminate | intros (rest & [=] & _)].
  - change (glob_match [Char "v"; Star false] (String c rest))
      with (Ascii.eqb "v" c && glob_match [Star false] rest).
    rewrite star_matches, andb_true_iff, negb_true_iff, Ascii.eqb_eq.
    split.
    + intros [<- H]. eauto.
    + intros (rest' & [= -> ->] & H). auto.
Qed.

(** *** The trigger *)

(** C6. The workflow starts exactly on the push of a tag that matches
    the pattern [v*]: no push of a branch, no push of another tag and no
    other event starts it. *)
Theorem publish_triggered_by_version_tags (ev : event) :
  triggered publish ev = true <->
  exists t, ev = Push (Tag t) /\ glob_match (filter_pattern "v*") t = true.
Proof.
  destruct ev as [[b | t] | n];
    cbn [triggered publish on_push on_other tags branches existsb].
  - split; [discriminate | intros (t & [=] & _)].
  - unfold matches_any. cbn [existsb]. rewrite orb_false_r.
    split; [eauto | intros (t' & [= ->] & H); exact H].
  - split; [discriminate | intros (t & [=] & _)].
Qed.

(** *** The jobs *)

Section Jobs.

Variable ok : string -> step -> bool.

Lemma run_steps_jobs jid l :
  Forall (fun ln => line_job ln = jid) (fst (run_steps ok jid l)).
Proof.
  induction l as [|s l IH]; cbn [run_steps]; [constructor|].
  destruct (ok jid s).
  - destruct (run_steps ok jid l) as [log b].
    constructor; [reflexivity | exact IH].
  - repeat constructor.
Qed.

Lemma run_steps_succeed jid l :
  forallb (ok jid) l = true ->
  run_steps ok jid l = (map (fun s => Line jid (step_name s) true) l, true).
Proof.
  induction l as [|s l IH]; cbn [run_steps forallb map]; [reflexivity|].
  intros [Hs Hl]%andb_true_iff. rewrite Hs, (IH Hl). reflexivity.
Qed.

Lemma run_steps_fail jid l :
  forallb (ok jid) l = false -> snd (run_steps ok jid l) = false.
Proof.
  induction l as [|s l IH]; cbn [run_steps forallb]; [discriminate|].
  destruct (ok jid s); cbn [andb]; [|reflexivity].
  intros Hl. specialize (IH Hl). destruct (run_steps ok jid l). exact IH.
Qed.

(** A workflow of two jobs, the second of which needs the first: the
    first runs; the second runs after it if it succeeded and is skipped
    otherwise. *)
Lemma run_needed_then_needing wf a b :
  jobs wf = [a; b] -> needs a = [] -> needs b = [job_id a] ->
  run_workflow ok wf =
  let '(l, good) := run_steps ok (job_id a) (steps a) in
  if good then
    let '(l0, good0) := run_steps ok (job_id b) (steps b) in
    (<[job_id b := if good0 then Success else Failure]>
       (<[job_id a := Success]> ∅), l ++ l0)
  else (<[job_id b := Skipped]> (<[job_id a := Failure]> ∅), l).
Proof.
  intros Hjobs Ha Hb. unfold run_workflow. rewrite Hjobs.
  cbn [length run_jobs pick]. rewrite Ha. cbn [forallb].
  rewrite Ha. cbn [forallb app].
  destruct (run_steps ok (job_id a) (steps a)) as [l good].
  cbn [pick]. rewrite Hb. cbn [forallb]. rewrite lookup_insert_eq.
  rewrite bool_decide_eq_true_2 by eauto. cbn [andb].
  rewrite Hb. cbn [forallb]. rewrite lookup_insert_eq.
  cbn [default from_option id].
  destruct good; cbn [succeeded andb]; [|reflexivity].
  destruct (run_steps ok (job_id b) (steps b)) as [l0 good0]. reflexivity.
Qed.

(** C7. Whatever the outcome of each step: when every step of
    [build-and-publish] succeeds (the build, the upload and the release
    among them), the log of the run is these steps, in order, followed by
    steps of [deploy-docs] only; when one of them fails, the job fails,
    [deploy-docs] is skipped and no step of it is in the log. *)
Theorem docs_after_publish :
  let r := run_workflow ok publish in
  if forallb (ok "build-and-publish") (steps build_and_publish) then
    fst r !! "build-and-publish" = Some Success /\
    exists docs,
      snd r = map (fun s => Line "build-and-publish" (step_name s) true)
                  (steps build_and_publish) ++ docs /\
      Forall (fun l => line_job l = "deploy-docs") docs
  else
    fst r !! "build-and-publish" = Some Failure /\
    fst r !! "deploy-docs" = Some Skipped /\
    Forall (fun l => line_job l = "build-and-publish") (snd r).
Proof.
  cbv zeta.
  rewrite (run_needed_then_needing publish build_and_publish deploy_docs
             eq_refl eq_refl eq_refl).
  change (job_id build_and_publish) with "build-and-publish".
  change (job_id deploy_docs) with "deploy-docs".
  pose proof (run_steps_jobs "build-and-publish" (steps build_and_publish))
    as Hjobs.
  destruct (forallb _ _) eqn:Hall.
  - rewrite (run_steps_succeed _ _ Hall).
    pose proof (run_steps_jobs "deploy-docs" (steps deploy_docs)) as Hdocs.
    destruct (run_steps ok "deploy-docs" _) as [l0 good0].
    cbn [fst snd] in *. split; [destruct good0; reflexivity|].
    exists l0. split; [reflexivity | exact Hdocs].
  - pose proof (run_steps_fail _ _ Hall) as Hfail.
    destruct (run_steps ok "build-and-publish" _) as [l good].
    cbn [fst snd] in *. subst good. cbn [fst snd].
    split; [reflexivity|]. split; [reflexivity | exact Hjobs].
Qed.

End Jobs.

(** *** The version *)

Lemma lines_terminated s :
  has_char LF s = false -> lines (s +:+ String LF "") = [s].
Proof.
  induction s as [|c s IH]; intros H.
  - reflexivity.
  - cbn [has_char] in H. apply orb_false_iff in H as [Hc Hs].
    change (lines (String c (s +:+ String LF "")) = [String c s]).
    cbn [lines]. rewrite Hc, (IH Hs). reflexivity.
Qed.

(** C10. On a ref [refs/tags/vX], the step [get_version] sets [VERSION]
    to [X] for the steps that follow: the ref without the prefix
    [refs/tags/v].  ([X] is on one line, as the name of a ref is; the
    file [$GITHUB_ENV] names is new to the step.) *)
Theorem version_is_tag_without_v (context : string -> string) (X : string)
    (sh : shell) (envfile : string) :
  has_char LF X = false ->
  vars sh !! "GITHUB_REF" = Some ("refs/tags/v" +:+ X) ->
  vars sh !! "GITHUB_ENV" = Some envfile ->
  files sh !! envfile = None ->
  exported context get_version sh !! "VERSION" = Some X.
Proof.
  intros HX Href Henv Hfile.
  unfold exported, get_version, run_script, exec_command, expand, expand_part.
  cbn [step_action fold_left vars files stdout map String.concat].
  rewrite Href. cbn [default from_option id].
  rewrite strip_literal_prefix by reflexivity.
  assert (Hne : "TAG_VERSION" <> "GITHUB_ENV") by discriminate.
  rewrite (lookup_insert_ne _ _ _ _ Hne), Henv. cbn [default from_option id].
  rewrite !lookup_insert_eq, Hfile. cbn [default from_option id].
  change ("" +:+ ("VERSION=" +:+ "" +:+ X) +:+ String LF "")
    with (("VERSION=" +:+ X) +:+ String LF "").
  unfold env_of_file. rewrite lines_terminated by exact HX.
  cbn [fold_left]. unfold set_env.
  change (split_at "=" ("VERSION=" +:+ X)) with (Some ("VERSION", X)).
  apply lookup_insert_eq.
Qed.

Lemma version_is_tag_without_v_witness :
  exported (fun _ => "") get_version
    {| vars := {[ "GITHUB_REF" := "refs/tags/v1.2.3";
                  "GITHUB_ENV" := "/home/runner/set_env" ]};
       files := ∅;
       stdout := [] |} !! "VERSION" = Some "1.2.3".
Proof.
  apply (version_is_tag_without_v (fun _ => "") "1.2.3" _
           "/home/runner/set_env"); reflexivity.
Defined.

End WorkflowFacts.

(** * Further properties *)

(** ** The objective function at its edges *)

Module NotebookEdges.

Import Notebook PyFacts NotebookFacts.

(** X1. A dictionary without the key [calibration_params] makes the
    objective raise [KeyError] for that key, and one with it but without
    [path_to_txtinout] makes it raise [KeyError] for the latter; in both
    cases before any call: nothing is opened, copied or run, and the
    world is as it was.  With both keys at least the workspace is
    opened. *)
Theorem missing_key_raises_before_any_call {W} (h : handler swatE W) (w : W)
    (dict_of_params : gmap string pyval) :
  let r := exec h (function_to_minimize dict_of_params) w in
  match dict_of_params !! "calibration_params",
        dict_of_params !! "path_to_txtinout" with
  | None, _ => r = Run (inl (KeyError "calibration_params")) w []
  | Some _, None => r = Run (inl (KeyError "path_to_txtinout")) w []
  | Some _, Some path =>
      exists answer rest,
        trace r = Entry (Reader (TxtinoutReader_init path)) answer :: rest
  end.
Proof.
  cbv zeta. unfold function_to_minimize, getitem.
  destruct (dict_of_params !! "calibration_params") as [cp|]; [|reflexivity].
  destruct (dict_of_params !! "path_to_txtinout") as [path|]; [|reflexivity].
  cbn [bind]. rewrite exec_call.
  destruct (h _ (Reader (TxtinoutReader_init path)) w) as [[e | a1] w1];
    cbn [trace logged]; eauto.
Qed.

(** X2. The objective reads its dictionary at the two keys
    [calibration_params] and [path_to_txtinout] only: two dictionaries
    that agree there give the same calls, the same outcome and the same
    final world, whatever else they hold. *)
Theorem other_keys_are_ignored {W} (h : handler swatE W) (w : W)
    (d d' : gmap string pyval) :
  d !! "calibration_params" = d' !! "calibration_params" ->
  d !! "path_to_txtinout" = d' !! "path_to_txtinout" ->
  exec h (function_to_minimize d) w = exec h (function_to_minimize d') w.
Proof.
  intros Hcp Hpath. unfold function_to_minimize, getitem.
  rewrite Hcp, Hpath. reflexivity.
Qed.

Lemma other_keys_are_ignored_witness :
  exec Scenario.packages
    (function_to_minimize
       (<["debug" := VBool true]> Scenario.dict_of_params))
    (Scenario.fs, Scenario.numpy)
  = exec Scenario.packages (function_to_minimize Scenario.dict_of_params)
      (Scenario.fs, Scenario.numpy).
Proof.
  apply (other_keys_are_ignored Scenario.packages
           (Scenario.fs, Scenario.numpy)
           (<["debug" := VBool true]> Scenario.dict_of_params)
           Scenario.dict_of_params); reflexivity.
Defined.

(** X3. The names of cell 3 fit the objective of cell 2: on the keyword
    arguments of [swat_problem] with any calibration parameters stored
    under its [param_arg_name], the objective finds both of its keys.  It
    opens [txtinout_folder] first, and when it returns it has run the
    simulation once, with exactly those parameters. *)
Theorem problem_arguments_reach_the_objective {W} (h : handler swatE W)
    (w : W) (calibration_params : pyval) :
  let r :=
    exec h
      (function_to_minimize
         (<[param_arg_name swat_problem := calibration_params]>
            (kwargs swat_problem))) w in
  (exists answer rest,
      trace r
      = Entry (Reader (TxtinoutReader_init (VStr txtinout_folder))) answer
          :: rest) /\
  (forall v, outcome r = inr v ->
             omap runner_params (trace r) = [calibration_params]).
Proof.
  cbv zeta.
  assert (Hcp : (<[param_arg_name swat_problem := calibration_params]>
                   (kwargs swat_problem) : gmap string pyval)
                !! "calibration_params" = Some calibration_params)
    by apply lookup_insert_eq.
  assert (Hpath : (<[param_arg_name swat_problem := calibration_params]>
                     (kwargs swat_problem) : gmap string pyval)
                  !! "path_to_txtinout" = Some (VStr txtinout_folder)).
  { rewrite lookup_insert_ne by discriminate. apply lookup_singleton_eq. }
  split.
  - unfold function_to_minimize, getitem. rewrite Hcp, Hpath.
    cbn [bind]. rewrite exec_call.
    destruct (h _ (Reader (TxtinoutReader_init (VStr txtinout_folder))) w)
      as [[e | a1] w1]; cbn [trace logged]; eauto.
  - intros v Hv.
    destruct (returning_run h w _ v Hv)
      as (cp & path & a & w1 & w2 & w3 & w4 & w5 & w6 & H).
    destruct H as (Hcp' & _ & _ & _ & _ & _ & _ & _ & _ & Htr & _).
    rewrite Htr. rewrite Hcp in Hcp'. injection Hcp' as <-. reflexivity.
Qed.

Section Generators.

Variable seed_state : Z -> Z.
Variable advance : Z -> Z.
Variable next_double : Z -> Q.
Context {W1 : Type}.
Variable hr : handler readerE W1.

Local Abbreviation packages :=
  (swat_handler hr (numpy_handler seed_state advance next_double)).

(** What an evaluation that returns has done to numpy's side of the
    world. *)
Lemma evaluation_draw (d : gmap string pyval) (w1 : W1) (st : numpy_state)
    (v : pyval) :
  outcome (exec packages (function_to_minimize d) (w1, st)) = inr v ->
  exists location,
    v = VTuple [VFloat (next_double (seed_state (entropy st (drawn st))));
                location] /\
    snd (final (exec packages (function_to_minimize d) (w1, st)))
    = {| entropy := entropy st;
         drawn := S (drawn st);
         generators :=
           <[fresh (dom (generators st))
               := advance (seed_state (entropy st (drawn st)))]>
             (generators st) |}.
Proof.
  intros Hv.
  destruct (returning_run _ _ _ _ Hv)
    as (cp & path & a & u1 & u2 & u3 & u4 & u5 & u6 & H).
  destruct H as (_ & _ & H1 & H2 & H3 & H4 & H5 & H6 & H7 & _ & ->).
  apply reader_call_keeps_numpy in H1, H2, H3, H4, H5.
  assert (Hst : snd u5 = st).
  { rewrite H5, H4, H3, H2, H1. reflexivity. }
  revert H6 H7. cbn [swat_handler numpy_handler]. rewrite Hst.
  intros [= <- <-]. cbn [snd gen_id generators entropy drawn].
  rewrite lookup_insert_eq. intros [= Hx Hfinal].
  rewrite <- Hfinal. unfold returned. rewrite <- Hx.
  cbn [snd]. rewrite insert_insert_eq. eexists. split; reflexivity.
Qed.

(** X4. An evaluation that returns has made one generator of its own,
    seeded from one word of entropy, and drawn from no other: on numpy's
    side, one more word is drawn, one generator is new, and every
    generator that existed before is in the state it was in. *)
Theorem evaluation_makes_its_own_generator (d : gmap string pyval)
    (w1 : W1) (st : numpy_state) (v : pyval) :
  outcome (exec packages (function_to_minimize d) (w1, st)) = inr v ->
  let st' := snd (final (exec packages (function_to_minimize d) (w1, st))) in
  drawn st' = S (drawn st) /\
  entropy st' = entropy st /\
  dom (generators st') = {[ fresh (dom (generators st)) ]} ∪ dom (generators st) /\
  (forall g, is_Some (generators st !! g) ->
             generators st' !! g = generators st !! g).
Proof.
  intros Hv. destruct (evaluation_draw d w1 st v Hv) as (location & _ & ->).
  cbn [drawn entropy generators].
  split; [reflexivity|]. split; [reflexivity|]. split.
  - apply dom_insert_L.
  - intros g Hg. apply lookup_insert_ne. intros <-.
    apply elem_of_dom in Hg. exact (is_fresh _ Hg).
Qed.

(** X5. Two evaluations in a row draw from two successive words of
    entropy: the fitness of the second is the first float of a generator
    seeded from the word after the one the first evaluation used,
    whatever the two dictionaries are. *)
Theorem successive_evaluations_use_successive_entropy
    (d d' : gmap string pyval) (w1 : W1) (st : numpy_state) (v v' : pyval) :
  outcome (exec packages (function_to_minimize d) (w1, st)) = inr v ->
  outcome (exec packages (function_to_minimize d')
             (final (exec packages (function_to_minimize d) (w1, st))))
    = inr v' ->
  exists location location',
    v = VTuple [VFloat (next_double (seed_state (entropy st (drawn st))));
                location] /\
    v' = VTuple [VFloat (next_double
                           (seed_state (entropy st (S (drawn st)))));
                 location'].
Proof.
  intros Hv Hv'.
  destruct (evaluation_draw d w1 st v Hv) as (location & -> & Hst).
  destruct (final (exec packages (function_to_minimize d) (w1, st)))
    as [w1' st'].
  cbn [snd] in Hst. subst st'.
  destruct (evaluation_draw d' w1' _ v' Hv') as (location' & -> & _).
  cbn [entropy drawn]. eauto.
Qed.

End Generators.

Lemma evaluation_makes_its_own_generator_witness :
  drawn (snd (final (exec Scenario.packages
                       (function_to_minimize Scenario.dict_of_params)
                       (Scenario.fs, Scenario.numpy)))) = 1%nat.
Proof.
  exact (proj1 (evaluation_makes_its_own_generator (fun seed => seed) Z.succ
                  Scenario.next_double (reader_handler Scenario.simulate)
                  Scenario.dict_of_params Scenario.fs Scenario.numpy _
                  scenario_returns)).
Defined.

Lemma scenario_returns_again :
  outcome (exec Scenario.packages
             (function_to_minimize Scenario.dict_of_params)
             (final (exec Scenario.packages
                       (function_to_minimize Scenario.dict_of_params)
                       (Scenario.fs, Scenario.numpy))))
  = inr (VTuple [VFloat (Scenario.next_double (987654321098765 - 2 ^ 40));
                 VDict [("test_calibration", VPath "1")]]).
Proof. vm_compute. reflexivity. Qed.

Lemma successive_evaluations_use_successive_entropy_witness :
  exists location location',
    VTuple [VFloat (Scenario.next_double 987654321098765);
            VDict [("test_calibration", VPath "0")]]
    = VTuple [VFloat (Scenario.next_double
                        (entropy Scenario.numpy (drawn Scenario.numpy)));
              location] /\
    VTuple [VFloat (Scenario.next_double (987654321098765 - 2 ^ 40));
            VDict [("test_calibration", VPath "1")]]
    = VTuple [VFloat (Scenario.next_double
                        (entropy Scenario.numpy
                           (S (drawn Scenario.numpy))));
              location'].
Proof.
  exact (successive_evaluations_use_successive_entropy (fun seed => seed)
           Z.succ Scenario.next_double (reader_handler Scenario.simulate)
           Scenario.dict_of_params Scenario.dict_of_params Scenario.fs
           Scenario.numpy _ _ scenario_returns scenario_returns_again).
Defined.

Section Copies.

Variable simulate :
  pyval -> gmap string string -> gmap string string * option exn.
Context {W2 : Type}.
Variable hn : handler numpyE W2.

Local Abbreviation on_disk := (swat_handler (reader_handler simulate) hn).

(** What an evaluation that returns has done to the file system. *)
Lemma evaluation_on_disk (d : gmap string pyval)
    (fs : gmap string (gmap string string)) (w2 : W2) (v : pyval) :
  outcome (exec on_disk (function_to_minimize d) (fs, w2)) = inr v ->
  exists cp path original files fitness,
    d !! "calibration_params" = Some cp /\
    d !! "path_to_txtinout" = Some path /\
    path_of path = Some original /\
    fs !! original = Some files /\
    snd (simulate cp files) = None /\
    v = VTuple [VFloat fitness;
                VDict [("test_calibration", VPath (fresh (dom fs)))]] /\
    fst (final (exec on_disk (function_to_minimize d) (fs, w2)))
    = <[fresh (dom fs) := fst (simulate cp files)]> fs.
Proof.
  intros Hv.
  destruct (returning_run _ _ _ _ Hv)
    as (cp & path & a & u1 & u2 & u3 & u4 & u5 & u6 & H).
  destruct H as (Hcp & Hpath & H1 & H2 & H3 & H4 & H5 & H6 & H7 & _ & ->).
  unfold returned. revert H1 H2 H3 H4 H5 H6 H7.
  cbn [swat_handler reader_handler fst snd].
  destruct (path_of path) as [original|] eqn:Hp; [|discriminate].
  destruct (fs !! original) as [files|] eqn:Hfiles; [|discriminate].
  intros [= <- <-]. cbn [fst snd root_folder]. rewrite Hfiles.
  intros [= <- <-]. cbn [fst snd path_of]. rewrite lookup_insert_eq.
  intros [= <- <-]. cbn [fst snd root_folder]. rewrite lookup_insert_eq.
  destruct (simulate cp files) as [files' [e|]] eqn:Hsim; [discriminate|].
  rewrite insert_insert_eq.
  intros [= <- <-]. cbn [fst snd path_of]. rewrite lookup_insert_eq.
  intros [= <- <-]. cbn [fst snd].
  destruct (hn _ default_rng w2) as [r6 w6]. intros [= -> <-].
  cbn [fst snd].
  destruct (hn _ (random (a_rng a)) w6) as [r7 w7]. intros [= -> <-].
  exists cp, path, original, files, (a_x a).
  rewrite Hsim. cbn [fst snd root_folder].
  repeat split; assumption || reflexivity.
Qed.

(** X6. The folder an evaluation reports is the temporary copy, and the
    copy is still there when the evaluation has returned: it holds the
    files the simulation left, and it is the one directory the
    evaluation has added to the file system; nothing removes it. *)
Theorem reported_folder_is_the_copy_left_behind (d : gmap string pyval)
    (fs : gmap string (gmap string string)) (w2 : W2) (v : pyval) :
  outcome (exec on_disk (function_to_minimize d) (fs, w2)) = inr v ->
  let fs' := fst (final (exec on_disk (function_to_minimize d) (fs, w2))) in
  exists fitness folder,
    v = VTuple [VFloat fitness; VDict [("test_calibration", VPath folder)]] /\
    fs !! folder = None /\
    is_Some (fs' !! folder) /\
    dom fs' = {[ folder ]} ∪ dom fs.
Proof.
  intros Hv.
  destruct (evaluation_on_disk d fs w2 v Hv)
    as (cp & path & original & files & fitness & _ & _ & _ & _ & _ & -> & ->).
  exists fitness, (fresh (dom fs)). split; [reflexivity|].
  split; [apply not_elem_of_dom, is_fresh|].
  split; [rewrite lookup_insert_eq; eauto | apply dom_insert_L].
Qed.

(** X7. Two evaluations in a row do not share a directory: the second
    runs in a copy of its own, other than the first one's, and leaves the
    folder the first one reported as it was. *)
Theorem successive_evaluations_use_separate_copies
    (d d' : gmap string pyval) (fs : gmap string (gmap string string))
    (w2 : W2) (v v' : pyval) :
  outcome (exec on_disk (function_to_minimize d) (fs, w2)) = inr v ->
  outcome (exec on_disk (function_to_minimize d')
             (final (exec on_disk (function_to_minimize d) (fs, w2))))
    = inr v' ->
  let fs1 := fst (final (exec on_disk (function_to_minimize d) (fs, w2))) in
  let fs2 :=
    fst (final (exec on_disk (function_to_minimize d')
                  (final (exec on_disk (function_to_minimize d) (fs, w2))))) in
  exists fitness fitness' folder folder',
    v = VTuple [VFloat fitness; VDict [("test_calibration", VPath folder)]] /\
    v' = VTuple [VFloat fitness';
                 VDict [("test_calibration", VPath folder')]] /\
    folder <> folder' /\
    fs2 !! folder = fs1 !! folder /\
    is_Some (fs2 !! folder).
Proof.
  intros Hv Hv'.
  destruct (evaluation_on_disk d fs w2 v Hv)
    as (cp & path & original & files & fitness & _ & _ & _ & _ & _ & -> & Hfs1).
  destruct (final (exec on_disk (function_to_minimize d) (fs, w2)))
    as [fs1 w2'].
  cbn [fst] in Hfs1.
  destruct (evaluation_on_disk d' fs1 w2' v' Hv')
    as (cp' & path' & original' & files' & fitness' & _ & _ & _ & _ & _
        & -> & Hfs2).
  cbn [fst]. rewrite Hfs2.
  exists fitness, fitness', (fresh (dom fs)), (fresh (dom fs1)).
  split; [reflexivity|]. split; [reflexivity|].
  assert (Hin : fresh (dom fs) ∈ dom fs1).
  { rewrite Hfs1, dom_insert_L. set_solver. }
  assert (Hne : fresh (dom fs1) <> fresh (dom fs)).
  { intros Heq. rewrite <- Heq in Hin. exact (is_fresh _ Hin). }
  split; [congruence|].
  rewrite lookup_insert_ne by exact Hne.
  split; [reflexivity | apply elem_of_dom, Hin].
Qed.

End Copies.

Lemma reported_folder_is_the_copy_left_behind_witness :
  exists fitness folder,
    VTuple [VFloat (Scenario.next_double 987654321098765);
            VDict [("test_calibration", VPath "0")]]
    = VTuple [VFloat fitness; VDict [("test_calibration", VPath folder)]] /\
    Scenario.fs !! folder = None.
Proof.
  destruct (reported_folder_is_the_copy_left_behind Scenario.simulate
              (numpy_handler (fun seed => seed) Z.succ Scenario.next_double)
              Scenario.dict_of_params Scenario.fs Scenario.numpy _
              scenario_returns)
    as (fitness & folder & Hv & Hnew & _).
  exists fitness, folder. split; assumption.
Defined.

Lemma successive_evaluations_use_separate_copies_witness :
  exists folder folder' : string, folder <> folder'.
Proof.
  destruct (successive_evaluations_use_separate_copies Scenario.simulate
              (numpy_handler (fun seed => seed) Z.succ Scenario.next_double)
              Scenario.dict_of_params Scenario.dict_of_params Scenario.fs
              Scenario.numpy _ _ scenario_returns scenario_returns_again)
    as (_ & _ & folder & folder' & _ & _ & Hne & _).
  exists folder, folder'. exact Hne.
Defined.

End NotebookEdges.

(** ** The workflow at its edges *)

Module WorkflowEdges.

Import Workflow Runner WorkflowFacts.

(** *** Which tags start the workflow *)

(** X8. A pushed tag starts the workflow exactly when its name is a [v]
    followed by any characters other than [/]: the rest need not be a
    version number and may be empty, and a name with a [/] in it, such as
    [v1/rc], starts nothing. *)
Theorem version_tags_start_the_workflow (t : string) :
  triggered publish (Push (Tag t)) = true <->
  exists rest, t = String "v" rest /\ has_char "/" rest = false.
Proof.
  rewrite <- version_tag_pattern.
  cbn [triggered publish on_push tags]. unfold matches_any.
  cbn [existsb]. rewrite orb_false_r. reflexivity.
Qed.

(** *** The file [$GITHUB_ENV] names *)

Lemma append_assoc s t u : (s +:+ t) +:+ u = s +:+ (t +:+ u).
Proof.
  induction s as [|c s IH]; [reflexivity|].
  rewrite !append_cons, IH. reflexivity.
Qed.

Lemma lines_line l rest :
  has_char LF l = false -> lines (l +:+ String LF rest) = l :: lines rest.
Proof.
  induction l as [|c l IH]; intros H.
  - reflexivity.
  - cbn [has_char] in H. apply orb_false_iff in H as [Hc Hl].
    rewrite append_cons. cbn [lines]. rewrite Hc, (IH Hl). reflexivity.
Qed.

Lemma lines_unlines_app ls s :
  Forall (fun l => has_char LF l = false) ls ->
  lines (unlines ls +:+ s) = ls ++ lines s.
Proof.
  induction 1 as [|l ls Hl _ IH]; [reflexivity|].
  cbn [unlines fold_right]. fold (unlines ls).
  rewrite append_assoc, append_cons, lines_line by exact Hl.
  rewrite IH. reflexivity.
Qed.

Lemma lines_unlines ls :
  Forall (fun l => has_char LF l = false) ls -> lines (unlines ls) = ls.
Proof.
  intros Hls. rewrite <- (append_nil_r (unlines ls)).
  rewrite lines_unlines_app by exact Hls. apply app_nil_r.
Qed.

(** What the step exports, whatever the ref and whatever the file holds
    already. *)
Lemma get_version_exports (context : string -> string) (sh : shell)
    (ref envfile : string) :
  vars sh !! "GITHUB_REF" = Some ref ->
  vars sh !! "GITHUB_ENV" = Some envfile ->
  exported context get_version sh
  = env_of_file
      (default "" (files sh !! envfile)
       +:+ ("VERSION=" +:+ strip_prefix (shell_pattern "refs/tags/v") ref)
       +:+ String LF "").
Proof.
  intros Href Henv.
  unfold exported, get_version, run_script, exec_command, expand, expand_part.
  cbn [step_action fold_left vars files stdout map String.concat].
  rewrite Href. cbn [default from_option id].
  assert (Hne : "TAG_VERSION" <> "GITHUB_ENV") by discriminate.
  rewrite (lookup_insert_ne _ _ _ _ Hne), Henv. cbn [default from_option id].
  rewrite !lookup_insert_eq. cbn [default from_option id]. reflexivity.
Qed.

(** X9. The step appends to the file [$GITHUB_ENV] names and does not
    overwrite it: when the file already holds complete lines, the
    variables they set stay exported, and [VERSION] is added to them (or
    replaces an earlier [VERSION]). *)
Theorem earlier_exports_are_kept (context : string -> string) (X : string)
    (sh : shell) (envfile : string) (earlier : list string) :
  has_char LF X = false ->
  Forall (fun l => has_char LF l = false) earlier ->
  vars sh !! "GITHUB_REF" = Some ("refs/tags/v" +:+ X) ->
  vars sh !! "GITHUB_ENV" = Some envfile ->
  files sh !! envfile = Some (unlines earlier) ->
  exported context get_version sh
  = <["VERSION" := X]> (env_of_file (unlines earlier)).
Proof.
  intros HX Hearlier Href Henv Hfile.
  rewrite (get_version_exports context sh _ envfile Href Henv), Hfile.
  cbn [default from_option id].
  rewrite strip_literal_prefix by reflexivity.
  unfold env_of_file.
  rewrite lines_unlines_app, lines_unlines by exact Hearlier.
  rewrite lines_terminated by exact HX.
  rewrite fold_left_app. cbn [fold_left]. unfold set_env at 1.
  change (split_at "=" ("VERSION=" +:+ X)) with (Some ("VERSION", X)).
  reflexivity.
Qed.

Lemma earlier_exports_are_kept_witness :
  exported (fun _ => "") get_version
    {| vars := {[ "GITHUB_REF" := "refs/tags/v1.2.3";
                  "GITHUB_ENV" := "/home/runner/set_env" ]};
       files := {[ "/home/runner/set_env" := unlines ["PIP_NO_INPUT=1"] ]};
       stdout := [] |}
  = <["VERSION" := "1.2.3"]> (env_of_file (unlines ["PIP_NO_INPUT=1"])).
Proof.
  apply (earlier_exports_are_kept (fun _ => "") "1.2.3" _
           "/home/runner/set_env" ["PIP_NO_INPUT=1"]);
    repeat constructor.
Defined.

(** *** A ref without the prefix *)

Lemma prefix_append p r : String.prefix p (p +:+ r) = true.
Proof.
  induction p as [|a p IH]; [destruct r; reflexivity|].
  rewrite append_cons. cbn [String.prefix].
  destruct (Ascii.ascii_dec a a) as [_ | Hne]; [exact IH | congruence].
Qed.

Lemma after_literal_prefix_inv pattern :
  has_char "*" pattern = false ->
  forall rest seen tail,
    after_shortest_prefix (shell_pattern pattern) seen rest = Some tail ->
    seen +:+ rest = pattern +:+ tail.
Proof.
  intros Hlit. induction rest as [|c rest IH]; intros seen tail;
    cbn [after_shortest_prefix]; rewrite glob_match_literal by exact Hlit;
    destruct (String.eqb_spec pattern seen) as [-> | Hne].
  - intros [= <-]. reflexivity.
  - discriminate.
  - intros [= <-]. reflexivity.
  - intros Hrest. apply IH in Hrest. rewrite append_snoc in Hrest.
    exact Hrest.
Qed.

(** [${x#literal}] leaves a value that does not start with the literal
    as it is. *)
Lemma strip_literal_no_prefix pattern value :
  has_char "*" pattern = false ->
  String.prefix pattern value = false ->
  strip_prefix (shell_pattern pattern) value = value.
Proof.
  intros Hlit Hno. unfold strip_prefix.
  destruct (after_shortest_prefix (shell_pattern pattern) "" value)
    as [tail|] eqn:Hafter; [|reflexivity].
  apply (after_literal_prefix_inv pattern Hlit) in Hafter.
  change ("" +:+ value) with value in Hafter. subst value.
  rewrite prefix_append in Hno. discriminate.
Qed.

(** X10. On a ref that does not start with [refs/tags/v] (a branch, or a
    tag without the [v]) the expansion removes nothing: the step exports
    the whole ref as [VERSION]. *)
Theorem ref_without_prefix_is_exported_whole (context : string -> string)
    (ref : string) (sh : shell) (envfile : string) :
  String.prefix "refs/tags/v" ref = false ->
  has_char LF ref = false ->
  vars sh !! "GITHUB_REF" = Some ref ->
  vars sh !! "GITHUB_ENV" = Some envfile ->
  files sh !! envfile = None ->
  exported context get_version sh !! "VERSION" = Some ref.
Proof.
  intros Hno Href_line Href Henv Hfile.
  rewrite (get_version_exports context sh ref envfile Href Henv), Hfile.
  cbn [default from_option id].
  rewrite strip_literal_no_prefix by (reflexivity || exact Hno).
  change ("" +:+ ("VERSION=" +:+ ref) +:+ String LF "")
    with (("VERSION=" +:+ ref) +:+ String LF "").
  unfold env_of_file. rewrite lines_terminated by exact Href_line.
  cbn [fold_left]. unfold set_env.
  change (split_at "=" ("VERSION=" +:+ ref)) with (Some ("VERSION", ref)).
  apply lookup_insert_eq.
Qed.

Lemma ref_without_prefix_is_exported_whole_witness :
  exported (fun _ => "") get_version
    {| vars := {[ "GITHUB_REF" := github_ref (Branch "main");
                  "GITHUB_ENV" := "/home/runner/set_env" ]};
       files := ∅;
       stdout := [] |} !! "VERSION" = Some "refs/heads/main".
Proof.
  apply (ref_without_prefix_is_exported_whole (fun _ => "")
           "refs/heads/main" _ "/home/runner/set_env"); reflexivity.
Defined.

(** *** From the trigger to the version *)

(** X11. On every run a pushed tag has started, the prefix is there to
    remove: with [GITHUB_REF] as GitHub sets it for the tag, the step
    exports as [VERSION] the name of the tag without its leading [v], and
    that version has no [/] in it. *)
Theorem triggered_run_exports_its_version (context : string -> string)
    (t : string) (sh : shell) (envfile : string) :
  triggered publish (Push (Tag t)) = true ->
  has_char LF t = false ->
  vars sh !! "GITHUB_REF" = Some (github_ref (Tag t)) ->
  vars sh !! "GITHUB_ENV" = Some envfile ->
  files sh !! envfile = None ->
  exists X,
    t = String "v" X /\
    exported context get_version sh !! "VERSION" = Some X /\
    has_char "/" X = false.
Proof.
  intros Htrig Hline Href Henv Hfile.
  assert (Hmatch : glob_match (filter_pattern "v*") t = true).
  { revert Htrig. cbn [triggered publish on_push tags]. unfold matches_any.
    cbn [existsb]. rewrite orb_false_r. exact (fun H => H). }
  apply version_tag_pattern in Hmatch as (X & -> & Hslash).
  exists X. split; [reflexivity|]. split; [|exact Hslash].
  rewrite (get_version_exports context sh _ envfile Href Henv), Hfile.
  cbn [default from_option id].
  change (github_ref (Tag (String "v" X))) with ("refs/tags/v" +:+ X).
  rewrite strip_literal_prefix by reflexivity.
  change ("" +:+ ("VERSION=" +:+ X) +:+ String LF "")
    with (("VERSION=" +:+ X) +:+ String LF "").
  unfold env_of_file. rewrite lines_terminated by exact Hline.
  cbn [fold_left]. unfold set_env.
  change (split_at "=" ("VERSION=" +:+ X)) with (Some ("VERSION", X)).
  apply lookup_insert_eq.
Qed.

Lemma triggered_run_exports_its_version_witness :
  exists X,
    "v2.0.1" = String "v" X /\
    exported (fun _ => "") get_version
      {| vars := {[ "GITHUB_REF" := github_ref (Tag "v2.0.1");
                    "GITHUB_ENV" := "/home/runner/set_env" ]};
         files := ∅;
         stdout := [] |} !! "VERSION" = Some X /\
    has_char "/" X = false.
Proof.
  apply (triggered_run_exports_its_version (fun _ => "") "v2.0.1" _
           "/home/runner/set_env"); reflexivity.
Defined.

(** *** What the step leaves alone *)

(** X14. Besides the line it appends to the file [$GITHUB_ENV] names,
    the script of the step sets the one shell variable [TAG_VERSION] and
    prints the one line [Publishing version: X]: every other variable
    ([GITHUB_REF] among them) and every other file is as before. *)
Theorem get_version_touches_little (context : string -> string) (X : string)
    (sh : shell) (envfile : string) :
  vars sh !! "GITHUB_REF" = Some ("refs/tags/v" +:+ X) ->
  vars sh !! "GITHUB_ENV" = Some envfile ->
  let sh' := run_script context sh (script_of get_version) in
  vars sh' = <["TAG_VERSION" := X]> (vars sh) /\
  (forall f, f <> envfile -> files sh' !! f = files sh !! f) /\
  stdout sh' = stdout sh ++ ["Publishing version: " +:+ X].
Proof.
  intros Href Henv.
  unfold script_of, get_version, run_script, exec_command, expand, expand_part.
  cbn [step_action fold_left vars files stdout map String.concat].
  rewrite Href. cbn [default from_option id].
  rewrite strip_literal_prefix by reflexivity.
  assert (Hne : "TAG_VERSION" <> "GITHUB_ENV") by discriminate.
  rewrite (lookup_insert_ne _ _ _ _ Hne), Henv. cbn [default from_option id].
  rewrite !lookup_insert_eq. cbn [default from_option id].
  split; [reflexivity|]. split; [|reflexivity].
  intros f Hf. apply lookup_insert_ne. congruence.
Qed.

Lemma get_version_touches_little_witness :
  stdout (run_script (fun _ => "")
            {| vars := {[ "GITHUB_REF" := "refs/tags/v1.2.3";
                          "GITHUB_ENV" := "/home/runner/set_env" ]};
               files := ∅;
               stdout := [] |} (script_of get_version))
  = ["Publishing version: 1.2.3"].
Proof.
  exact (proj2 (proj2 (get_version_touches_little (fun _ => "") "1.2.3"
                         {| vars := {[ "GITHUB_REF" := "refs/tags/v1.2.3";
                                       "GITHUB_ENV" := "/home/runner/set_env" ]};
                            files := ∅;
                            stdout := [] |}
                         "/home/runner/set_env" eq_refl eq_refl))).
Defined.

(** *** The log of a run *)

Section Log.

Variable ok : string -> step -> bool.

(** The steps of a job all succeed, or the log stops at the first one
    that fails. *)
Lemma run_steps_shape jid l :
  run_steps ok jid l = (map (fun s => Line jid (step_name s) true) l, true)
  /\ forallb (ok jid) l = true
  \/
  exists before s after,
    l = before ++ s :: after /\
    ok jid s = false /\
    run_steps ok jid l
    = (map (fun s => Line jid (step_name s) true) before
         ++ [Line jid (step_name s) false], false).
Proof.
  induction l as [|s l IH]; cbn [run_steps forallb map]; [left; auto|].
  destruct (ok jid s) eqn:Hs.
  - destruct IH as [[-> Hall] | (before & s' & after & -> & Hs' & ->)].
    + left. auto.
    + right. exists (s :: before), s', after. auto.
  - right. exists [], s, l. auto.
Qed.

Lemma succeeded_lines jid (l : list step) :
  Forall (fun ln => line_ok ln = true)
         (map (fun s => Line jid (step_name s) true) l).
Proof. induction l; constructor; auto. Qed.

(** In a log of successes with at most one line after them, a line
    that failed is the last one. *)
Lemma only_the_last_fails (oks tail : list line) :
  Forall (fun ln => line_ok ln = true) oks ->
  (length tail <= 1)%nat ->
  forall before ln after,
    oks ++ tail = before ++ ln :: after -> line_ok ln = false -> after = [].
Proof.
  induction 1 as [|o oks Ho _ IH]; intros Hlen before ln after Heq Hln.
  - destruct tail as [|t [|t' tail]]; cbn in Hlen; [| |lia].
    + destruct before; discriminate.
    + destruct before as [|b [|b' before]]; try discriminate.
      injection Heq as _ <-. reflexivity.
  - destruct before as [|b before].
    + injection Heq as -> _. congruence.
    + injection Heq as _ Heq. exact (IH Hlen before ln after Heq Hln).
Qed.

(** The log of a workflow of two jobs, the second of which needs the
    first. *)
Lemma log_of_needed_then_needing wf a b :
  jobs wf = [a; b] -> needs a = [] -> needs b = [job_id a] ->
  exists oks tail,
    snd (run_workflow ok wf) = oks ++ tail /\
    Forall (fun ln => line_ok ln = true) oks /\
    (length tail <= 1)%nat /\
    map line_names (oks ++ tail) `prefix_of` file_order wf.
Proof.
  intros Hjobs Ha Hb.
  rewrite (run_needed_then_needing ok wf a b Hjobs Ha Hb).
  unfold file_order. rewrite Hjobs. cbn [flat_map]. rewrite app_nil_r.
  unfold job_lines.
  destruct (run_steps_shape (job_id a) (steps a))
    as [[-> _] | (before & s & after & -> & _ & ->)].
  - destruct (run_steps_shape (job_id b) (steps b))
      as [[-> _] | (before & s & after & -> & _ & ->)]; cbn [snd].
    + exists (map (fun s => Line (job_id a) (step_name s) true) (steps a)
                ++ map (fun s => Line (job_id b) (step_name s) true)
                     (steps b)), [].
      rewrite app_nil_r. split; [reflexivity|].
      split; [apply Forall_app; split; apply succeeded_lines|].
      split; [cbn; lia|].
      rewrite map_app, !map_map. cbn [line_names line_job line_step].
      reflexivity.
    + exists (map (fun s => Line (job_id a) (step_name s) true) (steps a)
                ++ map (fun s => Line (job_id b) (step_name s) true) before),
        [Line (job_id b) (step_name s) false].
      split; [rewrite app_assoc; reflexivity|].
      split; [apply Forall_app; split; apply succeeded_lines|].
      split; [cbn; lia|].
      exists (map (fun s => (job_id b, step_name s)) after).
      rewrite !map_app, !map_map. cbn [map line_names line_job line_step].
      rewrite <- !app_assoc. reflexivity.
  - cbn [snd].
    exists (map (fun s => Line (job_id a) (step_name s) true) before),
      [Line (job_id a) (step_name s) false].
    split; [reflexivity|]. split; [apply succeeded_lines|].
    split; [cbn; lia|].
    exists (map (fun s => (job_id a, step_name s)) after
              ++ map (fun s => (job_id b, step_name s)) (steps b)).
    rewrite !map_app, !map_map. cbn [map line_names line_job line_step].
    rewrite <- !app_assoc. reflexivity.
Qed.

(** X12. Whatever the outcome of each step, the log of a run lists steps
    in the order of the file, from the first one on, without a gap; and
    a step that failed is the last line of the log: nothing runs after a
    failure, in its job or in the other. *)
Theorem nothing_runs_after_a_failure :
  let log := snd (run_workflow ok publish) in
  map line_names log `prefix_of` file_order publish /\
  (forall before ln after,
      log = before ++ ln :: after -> line_ok ln = false -> after = []).
Proof.
  cbv zeta.
  destruct (log_of_needed_then_needing publish build_and_publish deploy_docs
              eq_refl eq_refl eq_refl)
    as (oks & tail & -> & Hoks & Htail & Hprefix).
  split; [exact Hprefix|].
  intros before ln after. apply only_the_last_fails; assumption.
Qed.

(** X13. The documentation job succeeds exactly when every step of both
    jobs succeeds; the log is then every step of the file, in order, each
    a success. *)
Theorem docs_succeed_iff_every_step_does :
  let r := run_workflow ok publish in
  let all_ok :=
    forallb (ok "build-and-publish") (steps build_and_publish)
    && forallb (ok "deploy-docs") (steps deploy_docs) in
  (fst r !! "deploy-docs" = Some Success <-> all_ok = true) /\
  (all_ok = true ->
   snd r = map (fun n => Line (fst n) (snd n) true) (file_order publish)).
Proof.
  cbv zeta.
  rewrite (run_needed_then_needing ok publish build_and_publish deploy_docs
             eq_refl eq_refl eq_refl).
  change (job_id build_and_publish) with "build-and-publish".
  change (job_id deploy_docs) with "deploy-docs".
  destruct (forallb (ok "build-and-publish") (steps build_and_publish))
    eqn:Hpublish.
  - rewrite (run_steps_succeed ok _ _ Hpublish). cbn [andb].
    destruct (forallb (ok "deploy-docs") (steps deploy_docs)) eqn:Hdocs.
    + rewrite (run_steps_succeed ok _ _ Hdocs). cbn [fst snd].
      rewrite lookup_insert_eq. split; [split; reflexivity | reflexivity].
    + pose proof (run_steps_fail ok _ _ Hdocs) as Hfail.
      destruct (run_steps ok "deploy-docs" (steps deploy_docs)) as [l good].
      cbn [snd] in Hfail. subst good. cbn [fst snd].
      rewrite lookup_insert_eq. split; [split; discriminate | discriminate].
  - pose proof (run_steps_fail ok _ _ Hpublish) as Hfail.
    destruct (run_steps ok "build-and-publish" (steps build_and_publish))
      as [l good].
    cbn [snd] in Hfail. subst good. cbn [fst snd andb].
    rewrite lookup_insert_eq. split; [split; discriminate | discriminate].
Qed.

End Log.

End WorkflowEdges.
